(** * GovProp OCR microservice: request handling, embedded and verified

    The service is an Express application with three handlers
    (health, [POST /parse], [POST /api/ocr]), an API-key guard, a multer
    upload middleware and a final error handler.  The embedding follows
    the CommonJS [server.js] with both POST endpoints; the smaller ES-module
    [server.js] (health check and [/parse] only) is embedded in [Module
    ServerJs].

    JavaScript values are a small inductive type, strings are sequences of
    UTF-16 code units, [await]ed collaborator calls are sequentialised, and
    every handler is a computation in a writer/exception monad whose log
    records the collaborator calls and [console.error] lines. *)

From Stdlib Require Import ZArith NArith List String Ascii Bool Lia DecimalString.
From Stdlib.Strings Require Import Byte.
Import ListNotations.

Set Warnings "-register-all".
Local Open Scope string_scope.
Local Open Scope list_scope.
Local Open Scope Z_scope.

(* ================================================================== *)
(** ** JavaScript strings *)

(** A JavaScript string is a sequence of UTF-16 code units. *)
Definition jstring := list N.

(** ASCII literals of the source, as code units. *)
Definition lit (s : string) : jstring :=
  map N_of_ascii (list_ascii_of_string s).

Coercion lit : string >-> jstring.

(** [a === b] on two strings: same length, same code units. *)
Fixpoint str_eqb (a b : jstring) : bool :=
  match a, b with
  | [], [] => true
  | x :: a', y :: b' => N.eqb x y && str_eqb a' b'
  | _, _ => false
  end.

(** [s.startsWith(p)]. *)
Fixpoint startsWith (s p : jstring) {struct p} : bool :=
  match p with
  | [] => true
  | c :: p' =>
      match s with
      | [] => false
      | d :: s' => N.eqb d c && startsWith s' p'
      end
  end.

(** [s.includes(sub)]: [sub] starts at some position of [s]. *)
Fixpoint includes (s sub : jstring) : bool :=
  startsWith s sub ||
  match s with
  | [] => false
  | _ :: s' => includes s' sub
  end.

(** ECMAScript [WhiteSpace] and [LineTerminator] code points, the set
    [String.prototype.trim] strips. *)
Definition isWhiteSpace (c : N) : bool :=
  let in_ l := existsb (N.eqb c) l in
  (in_ [0x09; 0x0A; 0x0B; 0x0C; 0x0D; 0x20; 0xA0; 0x1680;
        0x2028; 0x2029; 0x202F; 0x205F; 0x3000; 0xFEFF]
   || ((0x2000 <=? c) && (c <=? 0x200A)))%N.

Fixpoint trimStart (s : jstring) : jstring :=
  match s with
  | [] => []
  | c :: r => if isWhiteSpace c then trimStart r else s
  end.

Definition trimEnd (s : jstring) : jstring := rev (trimStart (rev s)).

(** [s.trim()]. *)
Definition trim (s : jstring) : jstring := trimEnd (trimStart s).

(** Decimal rendering of an integral number, as a template literal
    [`${n}`] prints it. *)
Definition decimal (n : Z) : jstring :=
  lit (NilZero.string_of_int (Z.to_int n)).

(* ================================================================== *)
(** ** JavaScript values *)

(** Numbers are kept integral: the handlers read a number only for its
    truthiness (where every non-integral number behaves as a non-zero
    integer and [NaN] as [0]).  Objects are property lists in insertion
    order, which is also the order [JSON.stringify] writes them in. *)
Inductive value : Type :=
| VUndef
| VNull
| VBool (b : bool)
| VNum (n : Z)
| VStr (s : jstring)
| VObj (props : list (jstring * value)).

Notation "k :- v" := (@pair jstring value (k : jstring) v)
  (at level 60, no associativity).

(** ToBoolean. *)
Definition truthy (v : value) : bool :=
  match v with
  | VUndef | VNull => false
  | VBool b => b
  | VNum n => negb (n =? 0)
  | VStr s => match s with [] => false | _ => true end
  | VObj _ => true
  end.

(** [a || b]. *)
Definition js_or (a b : value) : value := if truthy a then a else b.

(** [a === b] on primitives; two object operands are compared by
    identity in JavaScript, and no object of the model is ever the same
    object as another. *)
Definition strict_eq (a b : value) : bool :=
  match a, b with
  | VUndef, VUndef | VNull, VNull => true
  | VBool x, VBool y => Bool.eqb x y
  | VNum x, VNum y => x =? y
  | VStr x, VStr y => str_eqb x y
  | _, _ => false
  end.

(** First binding of a key in a property list. *)
Fixpoint assoc {A : Type} (k : jstring) (l : list (jstring * A)) : option A :=
  match l with
  | [] => None
  | (k', v) :: r => if str_eqb k k' then Some v else assoc k r
  end.

(** Outcome of evaluating an expression or awaiting a promise. *)
Inductive completion (A : Type) : Type :=
| Normal (a : A)
| Throw (e : value).
Arguments Normal {A} a.
Arguments Throw {A} e.

(** The two places where the engine itself raises a [TypeError]. *)
Inductive type_error_site := ReadOfNullish | NotAFunction.

(** [JSON.stringify] followed by the client's parse: properties whose
    value is [undefined] are not written. *)
Fixpoint to_json (v : value) : value :=
  match v with
  | VObj props =>
      VObj ((fix go (l : list (jstring * value)) : list (jstring * value) :=
               match l with
               | [] => []
               | (k, x) :: r =>
                   match x with
                   | VUndef => go r
                   | _ => (k, to_json x) :: go r
                   end
               end) props)
  | _ => v
  end.

(* ================================================================== *)
(** ** Effects: the log of collaborator calls, and exceptions *)

Inductive event : Type :=
| EvFetch (url : value)
| EvPdfParse (buf : list byte)
| EvRecognize (buf : list byte) (lang : jstring)
| EvConsoleError (label : jstring) (e : value).

(** A computation yields the events it performed, in order, and how it
    completed. *)
Definition M (A : Type) : Type := (list event * completion A)%type.

Definition ret {A} (a : A) : M A := ([], Normal a).

Definition throw {A} (e : value) : M A := ([], Throw e).

Definition bind {A B} (m : M A) (f : A -> M B) : M B :=
  match m with
  | (t, Normal a) => let (t', r) := f a in (t ++ t', r)
  | (t, Throw e) => (t, Throw e)
  end.

(** [try { m } catch (e) { h e }]. *)
Definition try_catch {A} (m : M A) (h : value -> M A) : M A :=
  match m with
  | (t, Throw e) => let (t', r) := h e in (t ++ t', r)
  | _ => m
  end.

(** A call to a collaborator: one event, then the collaborator's outcome. *)
Definition call {A} (ev : event) (outcome : completion A) : M A :=
  ([ev], outcome).

(** An effect-free step that may throw. *)
Definition lift {A} (c : completion A) : M A := ([], c).

Notation "x <- m ;; k" := (bind m (fun x => k))
  (at level 61, m at next level, right associativity).
Notation "m ;;; k" := (bind m (fun _ => k))
  (at level 61, right associativity).

Definition console_error (label : jstring) (e : value) : M unit :=
  ([EvConsoleError label e], Normal tt).

(* ================================================================== *)
(** ** Requests and responses *)

(** A file as multer's memory storage hands it over in [req.file]. *)
Record file := { mimetype : jstring; buffer : list byte }.

Definition size (f : file) : Z := Z.of_nat (List.length (buffer f)).

(** The routes the application registers. *)
Inductive endpoint := GET_root | GET_healthz | POST_parse | POST_api_ocr.

(** A request as the route chain sees it: the route Express matched, the
    header map, [req.body] as left by [express.json], and the file part
    sent under the multipart field name [file], if any. *)
Record request := {
  route : endpoint;
  headers : list (jstring * jstring);
  body : value;
  upload : option file
}.

Record response := { res_status : Z; res_body : value }.

(** [res.status(code).json(obj)]. *)
Definition status_json (code : Z) (obj : value) : response :=
  {| res_status := code; res_body := to_json obj |}.

(** [res.json(obj)]: the status stays at Express's default, 200. *)
Definition json (obj : value) : response := status_json 200 obj.

(** [process.env]. *)
Record environment := { OCR_API_KEY : option jstring }.

(** What [fetch] resolves with: node-fetch's [Response], as far as the
    handler reads it. *)
Record fetch_response := {
  ok : bool;
  status : Z;
  arrayBuffer : completion (list byte)
}.

(** The Fetch standard's relation between the two fields the handler
    reads: [ok] holds exactly for a status in 200..299. *)
Definition is_2xx (s : Z) : bool := (200 <=? s) && (s <? 300).

(** The property names the handlers read off a value. *)
Inductive prop_name := file_url | text | data | message.

Definition key (p : prop_name) : jstring :=
  match p with
  | file_url => "file_url"
  | text => "text"
  | data => "data"
  | message => "message"
  end.

(** What a middleware hands to [next(err)]: a [multer.MulterError] with
    its [code], or anything else. *)
Inductive middleware_error :=
| MulterError (code : jstring)
| OtherError (e : value).

(** [const MAX_FILE_SIZE = 10 * 1024 * 1024;] *)
Definition MAX_FILE_SIZE : Z := 10 * 1024 * 1024.

(** Modelled from the spec: the size check of [upload.single("file")].
    multer is a dependency whose code is not part of the repository; the
    source only configures it ([memoryStorage], [limits.fileSize]) and maps
    its [LIMIT_FILE_SIZE] error.  An upload exceeding the configured
    maximum is rejected with that error before the handler is reached;
    otherwise the file, if any, is stored in [req.file]. *)
Definition upload_single (fileSize : Z) (part : option file)
  : middleware_error + option file :=
  match part with
  | None => inr None
  | Some f =>
      if fileSize <? size f
      then inl (MulterError "LIMIT_FILE_SIZE")
      else inr (Some f)
  end.

(** [req.headers[name]]. *)
Definition header (req : request) (name : jstring) : value :=
  match assoc name (headers req) with
  | Some s => VStr s
  | None => VUndef
  end.

(** [process.env.OCR_API_KEY]. *)
Definition cfgKey (env : environment) : value :=
  match OCR_API_KEY env with
  | Some k => VStr k
  | None => VUndef
  end.

(** [function verifyKey(req, res, next)]; [next] is the rest of the
    route chain. *)
Definition verifyKey (env : environment) (req : request)
    (next : M response) : M response :=
  if negb (truthy (cfgKey env)) then next
  else
    let key := header req "x-api-key" in
    if negb (strict_eq key (cfgKey env))
    then ret (status_json 401 (VObj ["error" :- VStr "Unauthorized"]))
    else next.

(** The health handler, registered for [GET /] and [GET /healthz]. *)
Definition health : M response :=
  ret (json (VObj [
    "ok" :- VBool true;
    "service" :- VStr "GovProp OCR";
    "endpoints" :- VObj [
      "parseUrl" :- VStr "POST /parse";
      "ocrUpload" :- VStr "POST /api/ocr";
      "health" :- VStr "GET /healthz"
    ]
  ])).

(** The final, four-argument error handler. *)
Definition error_handler (error : middleware_error) : response :=
  match error with
  | MulterError code =>
      if str_eqb code "LIMIT_FILE_SIZE"
      then status_json 400 (VObj ["error" :- VStr "File too large (max 10MB)"])
      else status_json 500 (VObj ["error" :- VStr "Unexpected error"])
  | OtherError _ => status_json 500 (VObj ["error" :- VStr "Unexpected error"])
  end.

Section Service.

(** The external collaborators: node-fetch, pdf-parse, tesseract.js;
    and the [TypeError] objects of the engine, whose text is its own. *)
Variable fetch : value -> completion fetch_response.
Variable pdfParse : list byte -> completion value.
Variable recognize : list byte -> jstring -> completion value.
Variable TypeError : type_error_site -> value.

(** [v.p] for one of the names above.  None of them is a property of
    a primitive's wrapper object, so only objects can answer with
    something else than [undefined]; [null] and [undefined] have no
    properties at all. *)
Definition get_prop (v : value) (p : prop_name) : completion value :=
  match v with
  | VUndef | VNull => Throw (TypeError ReadOfNullish)
  | VObj props =>
      Normal (match assoc (key p) props with Some x => x | None => VUndef end)
  | _ => Normal VUndef
  end.

(** [v?.p]. *)
Definition opt_get (v : value) (p : prop_name) : value :=
  match v with
  | VUndef | VNull => VUndef
  | VObj props => match assoc (key p) props with Some x => x | None => VUndef end
  | _ => VUndef
  end.

(** [v.trim()]: only strings have the method. *)
Definition call_trim (v : value) : completion jstring :=
  match v with
  | VStr s => Normal (trim s)
  | VUndef | VNull => Throw (TypeError ReadOfNullish)
  | _ => Throw (TypeError NotAFunction)
  end.

(** [(t || "").trim()]. *)
Definition trimmed_text (t : value) : completion jstring :=
  call_trim (js_or t (VStr "")).

(** The handler of [POST /parse]. *)
Definition parse_handler (req : request) : M response :=
  try_catch
    (url <- lift (get_prop (js_or (body req) (VObj [])) file_url) ;;
     if negb (truthy url)
     then ret (status_json 400 (VObj ["error" :- VStr "Missing file_url"]))
     else
       r <- call (EvFetch url) (fetch url) ;;
       if negb (ok r)
       then ret (status_json 502 (VObj [
              "error" :- VStr (("Failed to fetch PDF (" : jstring)
                               ++ decimal (status r) ++ (")" : jstring))]))
       else
         buf <- lift (arrayBuffer r) ;;
         d <- call (EvPdfParse buf) (pdfParse buf) ;;
         t <- lift (trimmed_text (opt_get d text)) ;;
         ret (json (VObj ["extracted_text" :- VStr t])))
    (fun e =>
       console_error "parse-url error:" e ;;;
       ret (status_json 500 (VObj ["error" :- VStr "Failed to parse document"]))).

(** The handler of [POST /api/ocr]; [req_file] is [req.file]. *)
Definition ocr_handler (req_file : option file) : M response :=
  try_catch
    (match req_file with
     | None => ret (status_json 400 (VObj ["error" :- VStr "No file uploaded"]))
     | Some f =>
         if str_eqb (mimetype f) "application/pdf" then
           d <- call (EvPdfParse (buffer f)) (pdfParse (buffer f)) ;;
           t <- lift (trimmed_text (opt_get d text)) ;;
           ret (json (VObj ["success" :- VBool true; "text" :- VStr t;
                            "fileType" :- VStr (mimetype f)]))
         else if startsWith (mimetype f) "image/" then
           result <- call (EvRecognize (buffer f) "eng")
                          (recognize (buffer f) "eng") ;;
           t <- lift (trimmed_text (opt_get (opt_get result data) text)) ;;
           ret (json (VObj ["success" :- VBool true; "text" :- VStr t;
                            "fileType" :- VStr (mimetype f)]))
         else
           ret (status_json 400 (VObj [
             "error" :- VStr "Unsupported file type. Upload a PDF or image."]))
     end)
    (fun error =>
       console_error "OCR upload error:" error ;;;
       m <- lift (get_prop error message) ;;
       ret (status_json 500 (VObj ["error" :- VStr "Failed to process file";
                                   "message" :- m]))).

(** [upload.single("file")] followed by the handler; an error passed to
    [next] skips the handler and reaches the error handler. *)
Definition ocr_chain (req : request) : M response :=
  match upload_single MAX_FILE_SIZE (upload req) with
  | inl err => ret (error_handler err)
  | inr req_file => ocr_handler req_file
  end.

(** The route table, which a request reaches once [express.json] has
    accepted its body; [server] below puts the body parser and the final
    error handler around it. *)
Definition app (env : environment) (req : request) : M response :=
  match route req with
  | GET_root | GET_healthz => health
  | POST_parse => verifyKey env req (parse_handler req)
  | POST_api_ocr => verifyKey env req (ocr_chain req)
  end.

End Service.

(** No leading, respectively trailing, white space. *)
Definition starts_clean (s : jstring) : bool :=
  match s with
  | [] => true
  | c :: _ => negb (isWhiteSpace c)
  end.

Definition ends_clean (s : jstring) : bool := starts_clean (rev s).

(** [t] is [s] with its leading and trailing white space removed. *)
Definition is_trim_of (s t : jstring) : Prop :=
  exists pre suf,
    s = pre ++ t ++ suf
    /\ forallb isWhiteSpace pre = true
    /\ forallb isWhiteSpace suf = true
    /\ starts_clean t = true
    /\ ends_clean t = true.

(** Whether [verifyKey] lets a request through: the guard is not enabled,
    or the header is the configured key. *)
Definition key_accepted (env : environment) (req : request) : bool :=
  negb (truthy (cfgKey env))
  || strict_eq (header req "x-api-key") (cfgKey env).

(* ================================================================== *)
(** ** The minimal [server.js] *)

(** The ES-module [server.js] registers [GET /healthz] and [POST /parse]
    only, behind the same guard.  Its [/parse] handler destructures
    [req.body] directly and logs under another label. *)
Module ServerJs.
Section Service.

Variable fetch : value -> completion fetch_response.
Variable pdfParse : list byte -> completion value.
Variable TypeError : type_error_site -> value.

Definition healthz : M response :=
  ret (status_json 200 (VObj ["ok" :- VBool true])).

Definition parse_handler (req : request) : M response :=
  try_catch
    (url <- lift (get_prop TypeError (body req) file_url) ;;
     if negb (truthy url)
     then ret (status_json 400 (VObj ["error" :- VStr "Missing file_url"]))
     else
       r <- call (EvFetch url) (fetch url) ;;
       if negb (ok r)
       then ret (status_json 502 (VObj [
              "error" :- VStr (("Failed to fetch PDF (" : jstring)
                               ++ decimal (status r) ++ (")" : jstring))]))
       else
         buf <- lift (arrayBuffer r) ;;
         d <- call (EvPdfParse buf) (pdfParse buf) ;;
         t <- lift (trimmed_text TypeError (opt_get d text)) ;;
         ret (json (VObj ["extracted_text" :- VStr t])))
    (fun e =>
       console_error "OCR parse error:" e ;;;
       ret (status_json 500 (VObj ["error" :- VStr "Failed to parse document"]))).

(** The route table; [None] where this file registers no route. *)
Definition app (env : environment) (req : request) : option (M response) :=
  match route req with
  | GET_healthz => Some healthz
  | POST_parse => Some (verifyKey env req (parse_handler req))
  | GET_root | POST_api_ocr => None
  end.

End Service.
End ServerJs.


(** The string [(t || "")] when it is one: [t] itself if it is a string,
    the empty string if it is any other falsy value, and none if it is
    truthy without being a string. *)
Definition text_of (t : value) : option jstring :=
  match t with
  | VStr s => Some s
  | _ => if truthy t then None else Some []
  end.

(** What the [catch] block of [/api/ocr] does with a failure [e]. *)
Definition ocr_failed (TE : type_error_site -> value) (t : list event)
    (e : value) : M response :=
  match get_prop TE e message with
  | Normal m =>
      (t ++ [EvConsoleError "OCR upload error:" e],
       Normal (status_json 500 (VObj ["error" :- VStr "Failed to process file";
                                      "message" :- m])))
  | Throw e' => (t ++ [EvConsoleError "OCR upload error:" e], Throw e')
  end.

(** A [console.error] line, as opposed to a collaborator call. *)
Definition is_log (ev : event) : bool :=
  match ev with
  | EvConsoleError _ _ => true
  | _ => false
  end.

(** The log of a computation. *)
Definition log_of {A} (m : M A) : list event := fst m.

(* ================================================================== *)
(** ** A sample deployment, for concrete runs *)

Module Sample.

Fixpoint bytes_eqb (a b : list byte) : bool :=
  match a, b with
  | [], [] => true
  | x :: a', y :: b' => Byte.eqb x y && bytes_eqb a' b'
  | _, _ => false
  end.

Definition pdf_bytes : list byte := [x25; x50; x44; x46; x2d; x31; x2e; x34].
Definition png_bytes : list byte := [x89; x50; x4e; x47; x0d; x0a; x1a; x0a].
Definition junk_bytes : list byte := [x00; xff].

(** [new Error(msg)], as far as a handler can read it. *)
Definition Error (msg : jstring) : value :=
  VObj ["name" :- VStr "Error"; "message" :- VStr msg].

Definition TypeError (site : type_error_site) : value :=
  VObj ["name" :- VStr "TypeError";
        "message" :- VStr (match site with
                           | ReadOfNullish => "Cannot read properties of undefined"
                           | NotAFunction => "trim is not a function"
                           end)].

Definition fetch (url : value) : completion fetch_response :=
  if strict_eq url (VStr "https://files.example/report.pdf")
  then Normal {| ok := true; status := 200; arrayBuffer := Normal pdf_bytes |}
  else if strict_eq url (VStr "https://files.example/junk.pdf")
  then Normal {| ok := true; status := 200; arrayBuffer := Normal junk_bytes |}
  else Normal {| ok := false; status := 404; arrayBuffer := Normal [] |}.

Definition pdfParse (buf : list byte) : completion value :=
  if bytes_eqb buf pdf_bytes
  then Normal (VObj ["numpages" :- VNum 1;
                     "text" :- VStr [0x0A; 0x0A; 0x51; 0x33; 0x20; 0x0A]%N])
  else Throw (Error "Invalid PDF structure").

Definition recognize (buf : list byte) (lang : jstring) : completion value :=
  if bytes_eqb buf png_bytes
  then Normal (VObj ["data" :- VObj ["text" :- VStr [0x4F; 0x4B; 0x0A]%N]])
  else Throw (Error "Error attempting to read image.").

Definition open_env : environment := {| OCR_API_KEY := None |}.
Definition keyed_env : environment := {| OCR_API_KEY := Some (lit "s3cret") |}.
Definition blank_env : environment := {| OCR_API_KEY := Some [] |}.

Definition parse_request (hs : list (jstring * jstring)) (b : value) : request :=
  {| route := POST_parse; headers := hs; body := b; upload := None |}.

Definition ocr_request (hs : list (jstring * jstring)) (f : option file) : request :=
  {| route := POST_api_ocr; headers := hs; body := VObj []; upload := f |}.

Definition get_request (r : endpoint) : request :=
  {| route := r; headers := []; body := VObj []; upload := None |}.

Definition with_key : list (jstring * jstring) :=
  [(lit "x-api-key", lit "s3cret")].

Definition url_body (u : jstring) : value := VObj ["file_url" :- VStr u].

Definition pdf_upload : file := {| mimetype := "application/pdf"; buffer := pdf_bytes |}.
Definition png_upload : file := {| mimetype := "image/png"; buffer := png_bytes |}.
Definition text_upload : file := {| mimetype := "text/plain"; buffer := junk_bytes |}.
Definition bad_pdf_upload : file := {| mimetype := "application/pdf"; buffer := junk_bytes |}.
Definition bad_png_upload : file := {| mimetype := "image/png"; buffer := junk_bytes |}.
Definition shouting_upload : file := {| mimetype := "APPLICATION/PDF"; buffer := pdf_bytes |}.

(** An upload of 10 MiB and one byte. *)
Definition oversized (mt : jstring) : file :=
  {| mimetype := mt; buffer := repeat x00 (Z.to_nat (MAX_FILE_SIZE + 1)) |}.

End Sample.

(* ================================================================== *)
(** ** Observations on answers and logs *)

(** [null] or [undefined]. *)
Definition nullish (v : value) : bool :=
  match v with
  | VUndef | VNull => true
  | _ => false
  end.

(** The collaborator calls of a log, without the [console.error] lines. *)
Definition calls (l : list event) : list event :=
  filter (fun ev => negb (is_log ev)) l.

(** The [console.error] lines of a log. *)
Definition logged (l : list event) : list event := filter is_log l.

(** What the [console.error] lines of a log carry, without their labels. *)
Fixpoint thrown (l : list event) : list value :=
  match l with
  | [] => []
  | EvConsoleError _ e :: r => e :: thrown r
  | _ :: r => thrown r
  end.

(** A body whose [error] property is a string. *)
Definition error_text (b : value) : option jstring :=
  match b with
  | VObj props =>
      match assoc "error" props with
      | Some (VStr s) => Some s
      | _ => None
      end
  | _ => None
  end.

(** A property of an object body. *)
Definition field (b : value) (k : jstring) : option value :=
  match b with
  | VObj props => assoc k props
  | _ => None
  end.

(* ================================================================== *)
(** ** The variant that loads pdf-parse lazily *)

(** The second server of the unnamed source file keeps pdf-parse in a
    module variable and loads it on first use, after making sure that the
    file pdf-parse opens when it is loaded exists.  The file system and
    [require] are collaborators; the module variable and the file system
    are the state threaded through the handlers. *)
Module LazyLoader.

(** A path, as its segments. *)
Definition path := list jstring.

(** What [require("pdf-parse")] evaluates to. *)
Definition parser := list byte -> completion value.

Inductive io : Type :=
| Ev (e : event)
| IoAccess (p : path)
| IoMkdir (p : path)
| IoWriteFile (p : path) (content : list byte)
| IoRequire (id : jstring).

(** [const minimalPDF = Buffer.from([...])]. *)
Definition minimalPDF : list byte :=
  [x25; x50; x44; x46; x2d; x31; x2e; x34;
   x0a; x25; xe2; xe3; xcf; xd3; x0a; x0a;
   x31; x20; x30; x20; x6f; x62; x6a; x0a;
   x3c; x3c; x2f; x54; x79; x70; x65; x2f;
   x43; x61; x74; x61; x6c; x6f; x67; x2f;
   x50; x61; x67; x65; x73; x20; x32; x20;
   x30; x20; x52; x3e; x3e; x0a; x65; x6e;
   x64; x6f; x62; x6a; x0a; x32; x20; x30;
   x20; x6f; x62; x6a; x0a; x3c; x3c; x2f;
   x54; x79; x70; x65; x2f; x50; x61; x67;
   x65; x73; x2f; x43; x6f; x75; x6e; x74;
   x20; x30; x2f; x4b; x69; x64; x73; x5b;
   x5d; x3e; x3e; x0a; x65; x6e; x64; x6f;
   x62; x6a; x0a; x78; x72; x65; x66; x0a;
   x30; x20; x33; x0a; x30; x30; x30; x30;
   x30; x30; x30; x30; x30; x30; x20; x36;
   x35; x35; x33; x35; x20; x66; x20; x0a;
   x74; x72; x61; x69; x6c; x65; x72; x0a;
   x3c; x3c; x2f; x53; x69; x7a; x65; x20;
   x33; x2f; x52; x6f; x6f; x74; x20; x31;
   x20; x30; x20; x52; x3e; x3e; x0a; x73;
   x74; x61; x72; x74; x78; x72; x65; x66;
   x0a; x31; x31; x36; x0a; x25; x25; x45;
   x4f; x46].

(** [path.join(__dirname, "test", "data")] and the file below it. *)
Definition testDir (dirname : path) : path :=
  dirname ++ [lit "test"; lit "data"].

Definition testFile (dirname : path) : path :=
  testDir dirname ++ [lit "05-versions-space.pdf"].

Section Loader.

(** The file system: [fs.accessSync] throws when the path cannot be
    accessed; [fs.mkdirSync(dir, {recursive: true})] and
    [fs.writeFileSync] change the file system and may throw;
    [require] reads it. *)
Variable FS : Type.
Variable accessSync : FS -> path -> completion unit.
Variable mkdirSync : FS -> path -> FS * completion unit.
Variable writeFileSync : FS -> path -> list byte -> FS * completion unit.
Variable require : FS -> jstring -> completion parser.
Variable dirname : path.
Variable fetch : value -> completion fetch_response.
Variable recognize : list byte -> jstring -> completion value.
Variable TypeError : type_error_site -> value.

(** The file system and [let pdfParse;]. *)
Record state := { fs : FS; pdfParse : option parser }.

(** A computation on the state, with its log and its completion. *)
Definition ST (A : Type) : Type := state -> list io * completion A * state.

Definition retS {A} (a : A) : ST A := fun st => ([], Normal a, st).

Definition throwS {A} (e : value) : ST A := fun st => ([], Throw e, st).

Definition bindS {A B} (m : ST A) (f : A -> ST B) : ST B :=
  fun st =>
    match m st with
    | (t, Normal a, st1) =>
        match f a st1 with (t', r, st2) => (t ++ t', r, st2) end
    | (t, Throw e, st1) => (t, Throw e, st1)
    end.

Definition try_catchS {A} (m : ST A) (h : value -> ST A) : ST A :=
  fun st =>
    match m st with
    | (t, Throw e, st1) =>
        match h e st1 with (t', r, st2) => (t ++ t', r, st2) end
    | done => done
    end.

Definition liftS {A} (c : completion A) : ST A := fun st => ([], c, st).

Definition callS {A} (ev : event) (outcome : completion A) : ST A :=
  fun st => ([Ev ev], outcome, st).

Definition console_errorS (label : jstring) (e : value) : ST unit :=
  fun st => ([Ev (EvConsoleError label e)], Normal tt, st).

Definition access (p : path) : ST unit :=
  fun st => ([IoAccess p], accessSync (fs st) p, st).

Definition mkdir (p : path) : ST unit :=
  fun st =>
    match mkdirSync (fs st) p with
    | (fs', r) => ([IoMkdir p], r, {| fs := fs'; pdfParse := pdfParse st |})
    end.

Definition writeFile (p : path) (content : list byte) : ST unit :=
  fun st =>
    match writeFileSync (fs st) p content with
    | (fs', r) =>
        ([IoWriteFile p content], r, {| fs := fs'; pdfParse := pdfParse st |})
    end.

Definition load (id : jstring) : ST parser :=
  fun st => ([IoRequire id], require (fs st) id, st).

Definition read_pdfParse : ST (option parser) :=
  fun st => ([], Normal (pdfParse st), st).

Definition assign_pdfParse (p : parser) : ST unit :=
  fun st => ([], Normal tt, {| fs := fs st; pdfParse := Some p |}).

Notation "x <~ m ;; k" := (bindS m (fun x => k))
  (at level 61, m at next level, right associativity).
Notation "m ~;; k" := (bindS m (fun _ => k))
  (at level 61, right associativity).

(** [function getPdfParse()]. *)
Definition getPdfParse : ST parser :=
  cached <~ read_pdfParse ;;
  match cached with
  | Some p => retS p
  | None =>
      try_catchS
        (try_catchS
           (access (testFile dirname))
           (fun _ =>
              mkdir (testDir dirname) ~;;
              writeFile (testFile dirname) minimalPDF) ~;;
         p <~ load "pdf-parse" ;;
         assign_pdfParse p ~;;
         retS p)
        (fun e =>
           console_errorS "Failed to init pdf-parse:" e ~;;
           throwS e)
  end.

(** The handler of [POST /parse]. *)
Definition parse_handler (req : request) : ST response :=
  try_catchS
    (url <~ liftS (get_prop TypeError (js_or (body req) (VObj [])) file_url) ;;
     if negb (truthy url)
     then retS (status_json 400 (VObj ["error" :- VStr "Missing file_url"]))
     else
       r <~ callS (EvFetch url) (fetch url) ;;
       if negb (ok r)
       then retS (status_json 502 (VObj [
              "error" :- VStr (("Failed to fetch PDF (" : jstring)
                               ++ decimal (status r) ++ (")" : jstring))]))
       else
         buf <~ liftS (arrayBuffer r) ;;
         parse <~ getPdfParse ;;
         d <~ callS (EvPdfParse buf) (parse buf) ;;
         t <~ liftS (trimmed_text TypeError (opt_get d text)) ;;
         retS (json (VObj ["extracted_text" :- VStr t])))
    (fun e =>
       console_errorS "parse-url error:" e ~;;
       retS (status_json 500 (VObj ["error" :- VStr "Failed to parse document"]))).

(** The handler of [POST /api/ocr]; the empty options object passed to
    [Tesseract.recognize] is left out of the event. *)
Definition ocr_handler (req_file : option file) : ST response :=
  try_catchS
    (match req_file with
     | None => retS (status_json 400 (VObj ["error" :- VStr "No file uploaded"]))
     | Some f =>
         if str_eqb (mimetype f) "application/pdf" then
           parse <~ getPdfParse ;;
           d <~ callS (EvPdfParse (buffer f)) (parse (buffer f)) ;;
           t <~ liftS (trimmed_text TypeError (opt_get d text)) ;;
           retS (json (VObj ["success" :- VBool true; "text" :- VStr t;
                             "fileType" :- VStr (mimetype f)]))
         else if startsWith (mimetype f) "image/" then
           result <~ callS (EvRecognize (buffer f) "eng")
                           (recognize (buffer f) "eng") ;;
           t <~ liftS (trimmed_text TypeError (opt_get (opt_get result data) text)) ;;
           retS (json (VObj ["success" :- VBool true; "text" :- VStr t;
                             "fileType" :- VStr (mimetype f)]))
         else
           retS (status_json 400 (VObj [
             "error" :- VStr "Unsupported file type. Upload a PDF or image."]))
     end)
    (fun error =>
       console_errorS "OCR upload error:" error ~;;
       m <~ liftS (get_prop TypeError error message) ;;
       retS (status_json 500 (VObj ["error" :- VStr "Failed to process file";
                                    "message" :- m]))).

(** [function verifyKey(req, res, next)], as in the other servers. *)
Definition verifyKey (env : environment) (req : request)
    (next : ST response) : ST response :=
  if negb (truthy (cfgKey env)) then next
  else
    let key := header req "x-api-key" in
    if negb (strict_eq key (cfgKey env))
    then retS (status_json 401 (VObj ["error" :- VStr "Unauthorized"]))
    else next.

(** The route table. *)
Definition app (env : environment) (req : request) : ST response :=
  match route req with
  | GET_root | GET_healthz => liftS (snd health)
  | POST_parse => verifyKey env req (parse_handler req)
  | POST_api_ocr =>
      verifyKey env req
        (match upload_single MAX_FILE_SIZE (upload req) with
         | inl err => retS (error_handler err)
         | inr req_file => ocr_handler req_file
         end)
  end.

(** The events of the eager servers within a log. *)
Fixpoint events (l : list io) : list event :=
  match l with
  | [] => []
  | Ev e :: r => e :: events r
  | _ :: r => events r
  end.

(** The file-system and [require] operations within a log. *)
Definition touches (l : list io) : list io :=
  filter (fun i => match i with Ev _ => false | _ => true end) l.

End Loader.
End LazyLoader.

(* ================================================================== *)
(** ** A sample file system, for concrete runs of the loader *)

Module SampleFs.

(** The files, with their content. *)
Definition FS : Type := list (LazyLoader.path * list byte).

Fixpoint path_eqb (a b : LazyLoader.path) : bool :=
  match a, b with
  | [], [] => true
  | x :: a', y :: b' => str_eqb x y && path_eqb a' b'
  | _, _ => false
  end.

Definition present (files : FS) (p : LazyLoader.path) : bool :=
  existsb (fun entry => path_eqb p (fst entry)) files.

Definition ENOENT : value := Sample.Error "ENOENT: no such file or directory".
Definition EROFS : value := Sample.Error "EROFS: read-only file system".

Definition accessSync (files : FS) (p : LazyLoader.path) : completion unit :=
  if present files p then Normal tt else Throw ENOENT.

Definition mkdirSync (files : FS) (p : LazyLoader.path) : FS * completion unit :=
  (files, Normal tt).

Definition writeFileSync (files : FS) (p : LazyLoader.path) (c : list byte)
  : FS * completion unit :=
  ((p, c) :: files, Normal tt).

(** The same on a read-only file system. *)
Definition writeFileSync_ro (files : FS) (p : LazyLoader.path) (c : list byte)
  : FS * completion unit :=
  (files, Throw EROFS).

Definition dirname : LazyLoader.path := [lit "srv"; lit "ocr"].

(** pdf-parse opens its test file when it is loaded. *)
Definition require (files : FS) (id : jstring) : completion LazyLoader.parser :=
  if present files (LazyLoader.testFile dirname)
  then Normal Sample.pdfParse
  else Throw ENOENT.

Definition cold : LazyLoader.state FS :=
  {| LazyLoader.fs := []; LazyLoader.pdfParse := None |}.

Definition warm : LazyLoader.state FS :=
  {| LazyLoader.fs := [(LazyLoader.testFile dirname, LazyLoader.minimalPDF)];
     LazyLoader.pdfParse := Some Sample.pdfParse |}.

Definition junk_request : request :=
  Sample.parse_request [] (Sample.url_body "https://files.example/junk.pdf").

Definition report_request : request :=
  Sample.parse_request [] (Sample.url_body "https://files.example/report.pdf").

(** A collaborator that rejects with [undefined]. *)
Definition reject_undefined (buf : list byte) : completion value := Throw VUndef.

End SampleFs.

(* ================================================================== *)
(** ** The whole application: body parser, routes, error handler *)

(** A request as it arrives.  [express.json] is registered before every
    route: it either leaves a value in [req.body] or passes an error to
    [next], which skips the routes and reaches the final error handler.
    body-parser is a dependency, so what it makes of the bytes of the body
    is an input here, [in_json].  ([cors], registered beside it with a
    list of origins, only sets response headers.) *)
Record inbound := {
  in_route : endpoint;
  in_headers : list (jstring * jstring);
  in_json : completion value;
  in_upload : option file
}.

(** The request the routes see once the body was parsed into [b]. *)
Definition parsed (i : inbound) (b : value) : request :=
  {| route := in_route i; headers := in_headers i; body := b;
     upload := in_upload i |}.

(** The full server: [app.use(express.json(...))], the routes, and the
    final error handler for what the body parser passes to [next]; such an
    error is no [MulterError]. *)
Definition server
    (fetch : value -> completion fetch_response)
    (pdfParse : list byte -> completion value)
    (recognize : list byte -> jstring -> completion value)
    (TypeError : type_error_site -> value)
    (env : environment) (i : inbound) : M response :=
  match in_json i with
  | Normal b => app fetch pdfParse recognize TypeError env (parsed i b)
  | Throw e => ret (error_handler (OtherError e))
  end.

(** The minimal [server.js] with its body parser.  That file has no error
    handler of its own: an error of the body parser, like a request for
    which it has no route, is answered by Express and not by the source,
    hence [None]. *)
Definition minimal_server
    (fetch : value -> completion fetch_response)
    (pdfParse : list byte -> completion value)
    (TypeError : type_error_site -> value)
    (env : environment) (i : inbound) : option (M response) :=
  match in_json i with
  | Normal b => ServerJs.app fetch pdfParse TypeError env (parsed i b)
  | Throw _ => None
  end.

(** Sample arrivals, for concrete runs. *)
Module SampleWire.

(** A request whose body parsed into [req]'s body. *)
Definition arrive (req : request) : inbound :=
  {| in_route := route req; in_headers := headers req;
     in_json := Normal (body req); in_upload := upload req |}.

(** What body-parser passes on for a body that is not JSON. *)
Definition SyntaxError : value :=
  VObj ["name" :- VStr "SyntaxError";
        "message" :- VStr "Unexpected token } in JSON at position 1";
        "status" :- VNum 400;
        "type" :- VStr "entity.parse.failed"].

(** A request with such a body. *)
Definition garbled (r : endpoint) (hs : list (jstring * jstring)) : inbound :=
  {| in_route := r; in_headers := hs; in_json := Throw SyntaxError;
     in_upload := None |}.

(** An OCR engine that rejects with a string. *)
Definition reject_string (buf : list byte) (lang : jstring) : completion value :=
  Throw (VStr "boom").

End SampleWire.

(* ================================================================== *)
(** ** Strings: comparison, prefixes, trimming *)

Lemma str_eqb_refl (a : jstring) : str_eqb a a = true.
Proof.
  induction a as [|x a IH]; simpl; [reflexivity|].
  now rewrite N.eqb_refl, IH.
Qed.

Lemma str_eqb_eq (a b : jstring) : str_eqb a b = true <-> a = b.
Proof.
  split.
  - revert b; induction a as [|x a IH]; intros [|y b] H; simpl in H;
      try discriminate; [reflexivity|].
    apply andb_true_iff in H as [Hxy Hab].
    apply N.eqb_eq in Hxy. apply IH in Hab. now subst.
  - intros ->. apply str_eqb_refl.
Qed.

Lemma str_eqb_neq (a b : jstring) : str_eqb a b = false <-> a <> b.
Proof.
  split.
  - intros H E. apply str_eqb_eq in E. congruence.
  - intros H. destruct (str_eqb a b) eqn:E; [|reflexivity].
    apply str_eqb_eq in E. contradiction.
Qed.

Lemma startsWith_prefix (s p : jstring) :
  startsWith s p = true <-> exists r, s = p ++ r.
Proof.
  split.
  - revert s; induction p as [|c p IH]; intros s H.
    + now exists s.
    + destruct s as [|d s]; simpl in H; [discriminate|].
      apply andb_true_iff in H as [Hdc Hsp].
      apply N.eqb_eq in Hdc. destruct (IH _ Hsp) as [r ->].
      exists r. now subst.
  - intros [r ->]. induction p as [|c p IH]; simpl; [reflexivity|].
    now rewrite N.eqb_refl, IH.
Qed.

Lemma includes_infix (a b c : jstring) : includes (a ++ b ++ c) b = true.
Proof.
  induction a as [|x a IH]; simpl.
  - assert (H : startsWith (b ++ c) b = true)
      by (apply startsWith_prefix; now exists c).
    destruct (b ++ c); simpl; now rewrite H.
  - rewrite IH. apply orb_true_r.
Qed.

Lemma trimStart_split (s : jstring) :
  exists pre, s = pre ++ trimStart s /\ forallb isWhiteSpace pre = true.
Proof.
  induction s as [|c s (pre & E & W)]; simpl.
  - now exists [].
  - destruct (isWhiteSpace c) eqn:Hc.
    + exists (c :: pre). simpl. rewrite Hc, W. split; [congruence|reflexivity].
    + now exists [].
Qed.

Lemma trimStart_clean (s : jstring) : starts_clean (trimStart s) = true.
Proof.
  induction s as [|c s IH]; simpl; [reflexivity|].
  destruct (isWhiteSpace c) eqn:Hc; [assumption|].
  simpl. now rewrite Hc.
Qed.

Lemma trimEnd_split (s : jstring) :
  exists suf, s = trimEnd s ++ suf /\ forallb isWhiteSpace suf = true.
Proof.
  unfold trimEnd. destruct (trimStart_split (rev s)) as (pre & E & W).
  exists (rev pre). split.
  - rewrite <- rev_app_distr, <- E. symmetry. apply rev_involutive.
  - rewrite forallb_forall in *. intros x Hx. apply W. now apply in_rev.
Qed.

Lemma trimEnd_clean (s : jstring) : ends_clean (trimEnd s) = true.
Proof.
  unfold ends_clean, trimEnd. rewrite rev_involutive. apply trimStart_clean.
Qed.

(** Trimming the end of a string keeps its first code unit, if any is
    left. *)
Lemma trimEnd_keeps_start (s : jstring) :
  starts_clean s = true -> starts_clean (trimEnd s) = true.
Proof.
  intros H. destruct (trimEnd_split s) as (suf & E & _).
  destruct (trimEnd s) as [|c t]; [reflexivity|].
  rewrite E in H. exact H.
Qed.

Lemma trim_is_trim_of (s : jstring) : is_trim_of s (trim s).
Proof.
  unfold trim.
  destruct (trimStart_split s) as (pre & E1 & W1).
  destruct (trimEnd_split (trimStart s)) as (suf & E2 & W2).
  exists pre, suf. repeat split; trivial.
  - now rewrite <- E2.
  - apply trimEnd_keeps_start, trimStart_clean.
  - apply trimEnd_clean.
Qed.

Lemma trimStart_skips (pre r : jstring) :
  forallb isWhiteSpace pre = true -> trimStart (pre ++ r) = trimStart r.
Proof.
  induction pre as [|c pre IH]; simpl; [reflexivity|].
  intros H. apply andb_true_iff in H as [Hc Hpre]. rewrite Hc. now apply IH.
Qed.

Lemma trimStart_fixes (t : jstring) :
  starts_clean t = true -> trimStart t = t.
Proof.
  destruct t as [|c t]; simpl; [reflexivity|].
  intros H. apply negb_true_iff in H. now rewrite H.
Qed.

Lemma forallb_rev {A} (p : A -> bool) (l : list A) :
  forallb p l = true -> forallb p (rev l) = true.
Proof.
  rewrite !forallb_forall. intros H x Hx. apply H. now apply in_rev.
Qed.

(** The description determines the result: only [trim s] is [s] with its
    leading and trailing white space removed. *)
Lemma is_trim_of_unique (s t : jstring) : is_trim_of s t -> t = trim s.
Proof.
  intros (pre & suf & -> & Wpre & Wsuf & Hstart & Hend).
  unfold trim. rewrite trimStart_skips by assumption.
  destruct t as [|c t].
  - assert (E : trimStart suf = []).
    { rewrite <- (app_nil_r suf). now rewrite trimStart_skips. }
    change ([] ++ suf) with suf. now rewrite E.
  - rewrite trimStart_fixes by exact Hstart.
    unfold trimEnd. rewrite rev_app_distr.
    rewrite trimStart_skips by now apply forallb_rev.
    rewrite trimStart_fixes by exact Hend.
    symmetry. apply rev_involutive.
Qed.

Lemma trim_empty : trim [] = [].
Proof. reflexivity. Qed.

(* ================================================================== *)
(** ** The guard and the route table *)

Lemma verifyKey_accepted env req next :
  key_accepted env req = true -> verifyKey env req next = next.
Proof.
  unfold key_accepted, verifyKey. intros H.
  destruct (negb (truthy (cfgKey env))); [reflexivity|].
  simpl in H. now rewrite H.
Qed.

Lemma verifyKey_refused env req next :
  key_accepted env req = false ->
  verifyKey env req next =
    ([], Normal {| res_status := 401;
                   res_body := VObj ["error" :- VStr "Unauthorized"] |}).
Proof.
  unfold key_accepted, verifyKey. intros H.
  apply orb_false_iff in H as [H1 H2]. now rewrite H1, H2.
Qed.

Lemma key_accepted_unset env req :
  OCR_API_KEY env = None \/ OCR_API_KEY env = Some [] ->
  key_accepted env req = true.
Proof. unfold key_accepted, cfgKey. now intros [-> | ->]. Qed.

Lemma key_accepted_set env req k :
  OCR_API_KEY env = Some k -> k <> [] ->
  key_accepted env req = true <-> assoc "x-api-key" (headers req) = Some k.
Proof.
  unfold key_accepted, cfgKey, header. intros -> Hk.
  destruct k as [|c k]; [contradiction|]. simpl negb. simpl orb.
  destruct (assoc _ (headers req)) as [h|]; simpl.
  - rewrite str_eqb_eq. split; congruence.
  - split; discriminate.
Qed.

Lemma upload_single_within f :
  size f <= MAX_FILE_SIZE ->
  upload_single MAX_FILE_SIZE (Some f) = inr (Some f).
Proof.
  intros H. unfold upload_single.
  destruct (MAX_FILE_SIZE <? size f) eqn:E; [|reflexivity].
  apply Z.ltb_lt in E. lia.
Qed.

Lemma upload_single_beyond f :
  MAX_FILE_SIZE < size f ->
  upload_single MAX_FILE_SIZE (Some f) = inl (MulterError "LIMIT_FILE_SIZE").
Proof.
  intros H. unfold upload_single. apply Z.ltb_lt in H. now rewrite H.
Qed.

Lemma text_of_trimmed TypeError t s :
  text_of t = Some s -> trimmed_text TypeError t = Normal (trim s).
Proof.
  unfold text_of, trimmed_text, js_or.
  destruct t as [| |b|n|x|ps]; simpl.
  1,2: intros [= <-]; reflexivity.
  - destruct b; [discriminate|]. now intros [= <-].
  - destruct (n =? 0); simpl; [|discriminate]. now intros [= <-].
  - intros [= ->]. now destruct s.
  - discriminate.
Qed.

Section Properties.

Variable fetch : value -> completion fetch_response.
Variable pdfParse : list byte -> completion value.
Variable recognize : list byte -> jstring -> completion value.
Variable TypeError : type_error_site -> value.

Local Abbreviation App := (app fetch pdfParse recognize TypeError).
Local Abbreviation Parse := (parse_handler fetch pdfParse TypeError).
Local Abbreviation Ocr := (ocr_handler pdfParse recognize TypeError).

Lemma app_parse env req :
  route req = POST_parse -> key_accepted env req = true ->
  App env req = Parse req.
Proof.
  intros Hr Hk. unfold app. rewrite Hr. now apply verifyKey_accepted.
Qed.

Lemma app_ocr env req :
  route req = POST_api_ocr -> key_accepted env req = true ->
  App env req = ocr_chain pdfParse recognize TypeError req.
Proof.
  intros Hr Hk. unfold app. rewrite Hr. now apply verifyKey_accepted.
Qed.

Lemma app_ocr_file env req f :
  route req = POST_api_ocr -> key_accepted env req = true ->
  upload req = Some f -> size f <= MAX_FILE_SIZE ->
  App env req = Ocr (Some f).
Proof.
  intros Hr Hk Hu Hs. rewrite app_ocr by assumption.
  unfold ocr_chain. rewrite Hu, upload_single_within by assumption.
  reflexivity.
Qed.

(** The first steps of [/parse], up to the fetch. *)
Lemma parse_url_read req props :
  body req = VObj props ->
  get_prop TypeError (js_or (body req) (VObj [])) file_url =
    Normal (match assoc "file_url" props with Some x => x | None => VUndef end).
Proof. intros ->. reflexivity. Qed.

(** [/parse] once the URL is read, the fetch answered 2xx and the body
    was received: what is left is the extractor and the trimming. *)
Lemma parse_fetched req props u r buf :
  body req = VObj props ->
  assoc "file_url" props = Some (VStr u) ->
  u <> [] ->
  fetch (VStr u) = Normal r ->
  ok r = true ->
  arrayBuffer r = Normal buf ->
  let failed e :=
    ([EvFetch (VStr u); EvPdfParse buf; EvConsoleError "parse-url error:" e],
     Normal {| res_status := 500;
               res_body := VObj ["error" :- VStr "Failed to parse document"] |}) in
  Parse req =
    match pdfParse buf with
    | Normal d =>
        match trimmed_text TypeError (opt_get d text) with
        | Normal t =>
            ([EvFetch (VStr u); EvPdfParse buf],
             Normal {| res_status := 200;
                       res_body := VObj ["extracted_text" :- VStr t] |})
        | Throw e => failed e
        end
    | Throw e => failed e
    end.
Proof.
  intros Hb Hu Hne Hf Hok Hab failed.
  unfold parse_handler. rewrite (parse_url_read req props Hb), Hu.
  destruct u as [|c u]; [contradiction|].
  cbn [lift bind truthy negb call]. rewrite Hf, Hok, Hab.
  destruct (pdfParse buf) as [d|e]; [|reflexivity].
  cbn [negb bind List.app]. now destruct (trimmed_text TypeError (opt_get d text)).
Qed.

Lemma ocr_pdf f :
  mimetype f = "application/pdf" ->
  Ocr (Some f) =
    match pdfParse (buffer f) with
    | Normal d =>
        match trimmed_text TypeError (opt_get d text) with
        | Normal t =>
            ([EvPdfParse (buffer f)],
             Normal {| res_status := 200;
                       res_body := VObj ["success" :- VBool true;
                                         "text" :- VStr t;
                                         "fileType" :- VStr (mimetype f)] |})
        | Throw e => ocr_failed TypeError [EvPdfParse (buffer f)] e
        end
    | Throw e => ocr_failed TypeError [EvPdfParse (buffer f)] e
    end.
Proof.
  intros Hm. unfold ocr_handler, ocr_failed.
  rewrite Hm at 1. rewrite str_eqb_refl.
  destruct (pdfParse (buffer f)) as [d|e]; cbn [call bind try_catch].
  - destruct (trimmed_text TypeError (opt_get d text)) as [t|e];
      cbn [lift bind try_catch List.app console_error]; [reflexivity|].
    now destruct (get_prop TypeError e message).
  - cbn [console_error bind List.app lift]. now destruct (get_prop TypeError e message).
Qed.

Lemma ocr_image f :
  mimetype f <> "application/pdf" ->
  startsWith (mimetype f) "image/" = true ->
  Ocr (Some f) =
    match recognize (buffer f) "eng" with
    | Normal result =>
        match trimmed_text TypeError (opt_get (opt_get result data) text) with
        | Normal t =>
            ([EvRecognize (buffer f) "eng"],
             Normal {| res_status := 200;
                       res_body := VObj ["success" :- VBool true;
                                         "text" :- VStr t;
                                         "fileType" :- VStr (mimetype f)] |})
        | Throw e => ocr_failed TypeError [EvRecognize (buffer f) "eng"] e
        end
    | Throw e => ocr_failed TypeError [EvRecognize (buffer f) "eng"] e
    end.
Proof.
  intros Hm Hi. unfold ocr_handler, ocr_failed.
  apply str_eqb_neq in Hm. rewrite Hm, Hi.
  destruct (recognize (buffer f) "eng") as [d|e]; cbn [call bind try_catch].
  - destruct (trimmed_text TypeError (opt_get (opt_get d data) text)) as [t|e];
      cbn [lift bind try_catch List.app console_error]; [reflexivity|].
    now destruct (get_prop TypeError e message).
  - cbn [console_error bind List.app lift]. now destruct (get_prop TypeError e message).
Qed.

Lemma ocr_unsupported f :
  mimetype f <> "application/pdf" ->
  startsWith (mimetype f) "image/" = false ->
  Ocr (Some f) =
    ([], Normal {| res_status := 400;
                   res_body := VObj ["error" :-
                     VStr "Unsupported file type. Upload a PDF or image."] |}).
Proof.
  intros Hm Hi. unfold ocr_handler.
  apply str_eqb_neq in Hm. now rewrite Hm, Hi.
Qed.

Lemma ocr_no_file :
  Ocr None =
    ([], Normal {| res_status := 400;
                   res_body := VObj ["error" :- VStr "No file uploaded"] |}).
Proof. reflexivity. Qed.

(* ------------------------------------------------------------------ *)
(** *** [POST /parse] *)

(** C2. A request to [POST /parse] that the guard lets through and whose
    JSON body has no [file_url], or has the empty string there, is
    answered 400 with exactly the body [{"error":"Missing file_url"}];
    the log is empty, so neither [fetch] nor the extractor was called.
    The same holds of the handler in the minimal [server.js]. *)
Theorem parse_missing_file_url env req props :
  route req = POST_parse ->
  key_accepted env req = true ->
  body req = VObj props ->
  assoc "file_url" props = None \/ assoc "file_url" props = Some (VStr []) ->
  let missing :=
    ([], Normal {| res_status := 400;
                   res_body := VObj ["error" :- VStr "Missing file_url"] |}) in
  App env req = missing
  /\ ServerJs.app fetch pdfParse TypeError env req = Some missing.
Proof.
  intros Hr Hk Hb Hu missing. split.
  - rewrite app_parse by assumption.
    unfold parse_handler. rewrite (parse_url_read req props Hb).
    now destruct Hu as [-> | ->].
  - unfold ServerJs.app. rewrite Hr, verifyKey_accepted by assumption.
    unfold ServerJs.parse_handler. rewrite Hb. simpl get_prop.
    change (key file_url) with (lit "file_url").
    now destruct Hu as [-> | ->].
Qed.

(** C3. When the fetch of a non-empty [file_url] completes with a status
    [s] outside 200..299, the answer is 502 with the body
    [{error: "Failed to fetch PDF (s)"}], [s] in decimal; the message
    contains the status (so "404" for a 404), and the log holds the
    fetch alone: the extractor is not called. *)
Theorem parse_fetch_not_2xx env req props u r :
  route req = POST_parse ->
  key_accepted env req = true ->
  body req = VObj props ->
  assoc "file_url" props = Some (VStr u) ->
  u <> [] ->
  fetch (VStr u) = Normal r ->
  ok r = is_2xx (status r) ->
  is_2xx (status r) = false ->
  let msg := ("Failed to fetch PDF (" : jstring)
             ++ decimal (status r) ++ (")" : jstring) in
  App env req =
    ([EvFetch (VStr u)],
     Normal {| res_status := 502; res_body := VObj ["error" :- VStr msg] |})
  /\ includes msg (decimal (status r)) = true
  /\ (status r = 404 -> includes msg "404" = true).
Proof.
  intros Hr Hk Hb Hu Hne Hf Hwf H2 msg. split; [|split].
  - rewrite app_parse by assumption.
    unfold parse_handler. rewrite (parse_url_read req props Hb), Hu.
    destruct u as [|c u]; [contradiction|].
    cbn [lift bind truthy negb call]. rewrite Hf, Hwf, H2. reflexivity.
  - apply includes_infix.
  - intros E. subst msg. rewrite E. reflexivity.
Qed.

(** C4. When the fetch of a non-empty [file_url] answers 2xx and the
    extractor succeeds, the answer is 200 with the body
    [{extracted_text: t}]: [t] is the extractor's text without its
    leading and trailing white space, and the empty string when the
    extractor's result has no text. *)
Theorem parse_extracted_text env req props u r buf d :
  route req = POST_parse ->
  key_accepted env req = true ->
  body req = VObj props ->
  assoc "file_url" props = Some (VStr u) ->
  u <> [] ->
  fetch (VStr u) = Normal r ->
  ok r = is_2xx (status r) ->
  is_2xx (status r) = true ->
  arrayBuffer r = Normal buf ->
  pdfParse buf = Normal d ->
  let answer t :=
    ([EvFetch (VStr u); EvPdfParse buf],
     Normal {| res_status := 200;
               res_body := VObj ["extracted_text" :- VStr t] |}) in
  (forall s, opt_get d text = VStr s ->
     App env req = answer (trim s) /\ is_trim_of s (trim s))
  /\ (opt_get d text = VUndef -> App env req = answer []).
Proof.
  intros Hr Hk Hb Hu Hne Hf Hwf H2 Hab Hp answer.
  rewrite H2 in Hwf.
  rewrite app_parse, (parse_fetched req props u r buf), Hp by assumption.
  split.
  - intros s Hs. rewrite Hs, (text_of_trimmed TypeError (VStr s) s eq_refl).
    split; [reflexivity | apply trim_is_trim_of].
  - intros Hs. rewrite Hs. reflexivity.
Qed.

(* ------------------------------------------------------------------ *)
(** *** [POST /api/ocr] *)

Lemma image_is_not_pdf (m : jstring) :
  startsWith m "image/" = true -> m <> "application/pdf".
Proof. intros H E. rewrite E in H. discriminate. Qed.

(** C1. An upload to [POST /api/ocr] that reaches the handler is
    dispatched on its declared content type: [application/pdf] calls the
    PDF extractor on the file, a type starting with [image/] calls the
    OCR engine on it (nothing else is called in either case, only logged),
    any other type is answered 400 "Unsupported file type. Upload a PDF
    or image." without any call; and without a file under the field
    [file] the answer is 400 "No file uploaded". *)
Theorem ocr_dispatch env req :
  route req = POST_api_ocr ->
  key_accepted env req = true ->
  (upload req = None ->
     App env req =
       ([], Normal {| res_status := 400;
                      res_body := VObj ["error" :- VStr "No file uploaded"] |}))
  /\ (forall f, upload req = Some f -> size f <= MAX_FILE_SIZE ->
        (mimetype f = "application/pdf" ->
           exists l c, App env req = (EvPdfParse (buffer f) :: l, c)
                       /\ forallb is_log l = true)
        /\ (startsWith (mimetype f) "image/" = true ->
           exists l c, App env req = (EvRecognize (buffer f) "eng" :: l, c)
                       /\ forallb is_log l = true)
        /\ (mimetype f <> "application/pdf" ->
            startsWith (mimetype f) "image/" = false ->
            App env req =
              ([], Normal {| res_status := 400;
                             res_body := VObj ["error" :-
                               VStr "Unsupported file type. Upload a PDF or image."] |}))).
Proof.
  intros Hr Hk. split.
  - intros Hu. rewrite app_ocr by assumption. unfold ocr_chain. now rewrite Hu.
  - intros f Hu Hs. rewrite (app_ocr_file env req f) by assumption.
    split; [|split].
    + intros Hm. rewrite ocr_pdf by assumption. unfold ocr_failed.
      destruct (pdfParse (buffer f)) as [d|e].
      * destruct (trimmed_text TypeError (opt_get d text)) as [t|e];
          [now eexists _, _|].
        destruct (get_prop TypeError e message); now eexists _, _.
      * destruct (get_prop TypeError e message); now eexists _, _.
    + intros Hi. rewrite ocr_image by (trivial; now apply image_is_not_pdf).
      unfold ocr_failed.
      destruct (recognize (buffer f) "eng") as [d|e].
      * destruct (trimmed_text TypeError (opt_get (opt_get d data) text)) as [t|e];
          [now eexists _, _|].
        destruct (get_prop TypeError e message); now eexists _, _.
      * destruct (get_prop TypeError e message); now eexists _, _.
    + intros Hm Hi. now apply ocr_unsupported.
Qed.

(** C5. An accepted upload whose extraction or OCR succeeds is answered
    200 with [{success: true, text: <string>, fileType: <declared type>}];
    for a PDF upload [fileType] is "application/pdf". *)
Theorem ocr_success env req f :
  route req = POST_api_ocr ->
  key_accepted env req = true ->
  upload req = Some f ->
  size f <= MAX_FILE_SIZE ->
  (mimetype f = "application/pdf" ->
   forall d s,
     pdfParse (buffer f) = Normal d ->
     text_of (opt_get d text) = Some s ->
     App env req =
       ([EvPdfParse (buffer f)],
        Normal {| res_status := 200;
                  res_body := VObj ["success" :- VBool true;
                                    "text" :- VStr (trim s);
                                    "fileType" :- VStr "application/pdf"] |}))
  /\ (startsWith (mimetype f) "image/" = true ->
      forall result s,
        recognize (buffer f) "eng" = Normal result ->
        text_of (opt_get (opt_get result data) text) = Some s ->
        App env req =
          ([EvRecognize (buffer f) "eng"],
           Normal {| res_status := 200;
                     res_body := VObj ["success" :- VBool true;
                                       "text" :- VStr (trim s);
                                       "fileType" :- VStr (mimetype f)] |})).
Proof.
  intros Hr Hk Hu Hs. rewrite (app_ocr_file env req f) by assumption. split.
  - intros Hm d s Hp Ht.
    rewrite ocr_pdf, Hp, (text_of_trimmed TypeError _ s Ht) by assumption.
    now rewrite Hm.
  - intros Hi result s Hp Ht.
    rewrite ocr_image by (trivial; now apply image_is_not_pdf).
    now rewrite Hp, (text_of_trimmed TypeError _ s Ht).
Qed.

Lemma ocr_failed_message t e eprops m :
  e = VObj eprops ->
  assoc "message" eprops = Some (VStr m) ->
  ocr_failed TypeError t e =
    (t ++ [EvConsoleError "OCR upload error:" e],
     Normal {| res_status := 500;
               res_body := VObj ["error" :- VStr "Failed to process file";
                                 "message" :- VStr m] |}).
Proof.
  intros -> Hm. unfold ocr_failed, get_prop.
  change (key message) with (lit "message"). now rewrite Hm.
Qed.

(** A failure that is [null] or [undefined] has no [message] to read:
    the [catch] block of [/api/ocr] then throws itself, after logging. *)
Lemma ocr_failed_nullish t e :
  e = VUndef \/ e = VNull ->
  ocr_failed TypeError t e =
    (t ++ [EvConsoleError "OCR upload error:" e],
     Throw (TypeError ReadOfNullish)).
Proof. now intros [-> | ->]. Qed.

(** C7. An upload to [POST /api/ocr] larger than 10 MiB, that is
    10 * 1024 * 1024 bytes, is answered 400 with the body
    [{error: "File too large (max 10MB)"}] whatever its declared content
    type; the handler does not run: nothing is called and nothing is
    logged. *)
Theorem upload_too_large env req f :
  route req = POST_api_ocr ->
  key_accepted env req = true ->
  upload req = Some f ->
  MAX_FILE_SIZE < size f ->
  MAX_FILE_SIZE = 10485760
  /\ App env req =
       ([], Normal {| res_status := 400;
                      res_body := VObj ["error" :-
                                        VStr "File too large (max 10MB)"] |}).
Proof.
  intros Hr Hk Hu Hs. split; [reflexivity|].
  rewrite app_ocr by assumption. unfold ocr_chain.
  now rewrite Hu, upload_single_beyond.
Qed.

(** C10. The PDF branch of [/api/ocr] is taken only when the declared
    content type is, code unit for code unit, "application/pdf", and the
    OCR branch only when it begins with the lower-case "image/".
    "APPLICATION/PDF", "application/pdf; charset=binary" and "IMAGE/PNG"
    match neither and are answered 400 as unsupported. *)
Theorem ocr_mimetype_exact env req f :
  route req = POST_api_ocr ->
  key_accepted env req = true ->
  upload req = Some f ->
  size f <= MAX_FILE_SIZE ->
  (forall b, In (EvPdfParse b) (log_of (App env req)) ->
     mimetype f = lit "application/pdf")
  /\ (forall b l, In (EvRecognize b l) (log_of (App env req)) ->
       exists rest, mimetype f = lit "image/" ++ rest)
  /\ (mimetype f = "APPLICATION/PDF"
      \/ mimetype f = "application/pdf; charset=binary"
      \/ mimetype f = "IMAGE/PNG" ->
      App env req =
        ([], Normal {| res_status := 400;
                       res_body := VObj ["error" :-
                         VStr "Unsupported file type. Upload a PDF or image."] |})).
Proof.
  intros Hr Hk Hu Hs. rewrite (app_ocr_file env req f) by assumption.
  destruct (str_eqb (mimetype f) "application/pdf") eqn:Epdf.
  - apply str_eqb_eq in Epdf. split; [|split].
    + now intros _ _.
    + intros b l. rewrite ocr_pdf by assumption. unfold ocr_failed, log_of.
      destruct (pdfParse (buffer f)) as [d|e];
        [destruct (trimmed_text TypeError (opt_get d text)) as [t|e]|];
        try destruct (get_prop TypeError e message); simpl;
        intros H; decompose [or] H; try discriminate; contradiction.
    + rewrite Epdf. intros [H | [H | H]]; discriminate.
  - apply str_eqb_neq in Epdf.
    destruct (startsWith (mimetype f) "image/") eqn:Eimg.
    + split; [|split].
      * intros b. rewrite ocr_image by assumption. unfold ocr_failed, log_of.
        destruct (recognize (buffer f) "eng") as [d|e];
          [destruct (trimmed_text TypeError (opt_get (opt_get d data) text))
             as [t|e]|];
          try destruct (get_prop TypeError e message); simpl;
          intros H; decompose [or] H; try discriminate; contradiction.
      * intros _ _ _. now apply startsWith_prefix.
      * intros [H | [H | H]]; rewrite H in Eimg; discriminate.
    + rewrite ocr_unsupported by assumption. split; [|split].
      * intros b [].
      * intros b l [].
      * reflexivity.
Qed.

End Properties.

(* ================================================================== *)
(** ** Concrete runs on the sample deployment *)

Module Runs.
Import Sample.

Abbreviation run := (app fetch pdfParse recognize TypeError).
Abbreviation run_minimal := (ServerJs.app fetch pdfParse TypeError).

Lemma parse_missing_file_url_run :
  let answer :=
    ([], Normal {| res_status := 400;
                   res_body := VObj ["error" :- VStr "Missing file_url"] |}) in
  (run keyed_env (parse_request with_key (VObj [])) = answer
   /\ run_minimal keyed_env (parse_request with_key (VObj [])) = Some answer)
  /\ (run open_env (parse_request [] (url_body [])) = answer
      /\ run_minimal open_env (parse_request [] (url_body [])) = Some answer).
Proof.
  split.
  - apply (parse_missing_file_url fetch pdfParse recognize TypeError
             keyed_env (parse_request with_key (VObj [])) []);
      [reflexivity | reflexivity | reflexivity | left; reflexivity].
  - apply (parse_missing_file_url fetch pdfParse recognize TypeError
             open_env (parse_request [] (url_body [])) ["file_url" :- VStr []]);
      [reflexivity | reflexivity | reflexivity | right; reflexivity].
Defined.

Lemma parse_fetch_not_2xx_run :
  let url : jstring := "https://files.example/gone.pdf" in
  let msg : jstring := "Failed to fetch PDF (404)" in
  run open_env (parse_request [] (url_body url)) =
    ([EvFetch (VStr url)],
     Normal {| res_status := 502; res_body := VObj ["error" :- VStr msg] |})
  /\ includes msg (decimal 404) = true
  /\ (404 = 404 -> includes msg "404" = true).
Proof.
  intros url msg.
  apply (parse_fetch_not_2xx fetch pdfParse recognize TypeError
           open_env (parse_request [] (url_body url))
           ["file_url" :- VStr url] url
           {| ok := false; status := 404; arrayBuffer := Normal [] |});
    try reflexivity.
  discriminate.
Defined.

Lemma parse_extracted_text_run :
  let url : jstring := "https://files.example/report.pdf" in
  run open_env (parse_request [] (url_body url)) =
    ([EvFetch (VStr url); EvPdfParse pdf_bytes],
     Normal {| res_status := 200;
               res_body := VObj ["extracted_text" :- VStr "Q3"] |})
  /\ is_trim_of [0x0A; 0x0A; 0x51; 0x33; 0x20; 0x0A]%N "Q3".
Proof.
  intros url.
  refine (proj1 (parse_extracted_text fetch pdfParse recognize TypeError
           open_env (parse_request [] (url_body url))
           ["file_url" :- VStr url] url
           {| ok := true; status := 200; arrayBuffer := Normal pdf_bytes |}
           pdf_bytes
           (VObj ["numpages" :- VNum 1;
                  "text" :- VStr [0x0A; 0x0A; 0x51; 0x33; 0x20; 0x0A]%N])
           eq_refl eq_refl eq_refl eq_refl _ eq_refl eq_refl eq_refl
           eq_refl eq_refl) _ eq_refl).
  discriminate.
Defined.

Lemma ocr_dispatch_run :
  run open_env (ocr_request [] None) =
    ([], Normal {| res_status := 400;
                   res_body := VObj ["error" :- VStr "No file uploaded"] |})
  /\ (exists l c, run open_env (ocr_request [] (Some pdf_upload)) =
                    (EvPdfParse pdf_bytes :: l, c) /\ forallb is_log l = true)
  /\ (exists l c, run open_env (ocr_request [] (Some png_upload)) =
                    (EvRecognize png_bytes "eng" :: l, c)
                    /\ forallb is_log l = true)
  /\ run open_env (ocr_request [] (Some text_upload)) =
       ([], Normal {| res_status := 400;
                      res_body := VObj ["error" :-
                        VStr "Unsupported file type. Upload a PDF or image."] |}).
Proof.
  pose (thm := fun f =>
    ocr_dispatch fetch pdfParse recognize TypeError
      open_env (ocr_request [] f) eq_refl eq_refl).
  split; [|split; [|split]].
  - exact (proj1 (thm None) eq_refl).
  - refine (proj1 (proj2 (thm (Some pdf_upload)) pdf_upload eq_refl _) eq_refl).
    vm_compute; discriminate.
  - refine (proj1 (proj2 (proj2 (thm (Some png_upload)) png_upload eq_refl _))
              eq_refl).
    vm_compute; discriminate.
  - refine (proj2 (proj2 (proj2 (thm (Some text_upload)) text_upload eq_refl _))
              _ eq_refl).
    + vm_compute; discriminate.
    + discriminate.
Defined.

Lemma ocr_success_run :
  run open_env (ocr_request [] (Some pdf_upload)) =
    ([EvPdfParse pdf_bytes],
     Normal {| res_status := 200;
               res_body := VObj ["success" :- VBool true;
                                 "text" :- VStr "Q3";
                                 "fileType" :- VStr "application/pdf"] |})
  /\ run keyed_env (ocr_request with_key (Some png_upload)) =
       ([EvRecognize png_bytes "eng"],
        Normal {| res_status := 200;
                  res_body := VObj ["success" :- VBool true;
                                    "text" :- VStr "OK";
                                    "fileType" :- VStr "image/png"] |}).
Proof.
  split.
  - refine (proj1 (ocr_success fetch pdfParse recognize TypeError
                     open_env (ocr_request [] (Some pdf_upload)) pdf_upload
                     eq_refl eq_refl eq_refl _)
              eq_refl _ [0x0A; 0x0A; 0x51; 0x33; 0x20; 0x0A]%N eq_refl eq_refl).
    vm_compute; discriminate.
  - refine (proj2 (ocr_success fetch pdfParse recognize TypeError
                     keyed_env (ocr_request with_key (Some png_upload)) png_upload
                     eq_refl eq_refl eq_refl _)
              eq_refl _ [0x4F; 0x4B; 0x0A]%N eq_refl eq_refl).
    vm_compute; discriminate.
Defined.

Lemma oversized_size mt : size (oversized mt) = MAX_FILE_SIZE + 1.
Proof.
  unfold size, oversized. cbn [buffer].
  rewrite repeat_length. apply Z2Nat.id. unfold MAX_FILE_SIZE. lia.
Qed.

Lemma upload_too_large_run :
  (MAX_FILE_SIZE = 10485760
   /\ run open_env (ocr_request [] (Some (oversized "application/pdf"))) =
        ([], Normal {| res_status := 400;
                       res_body := VObj ["error" :-
                                         VStr "File too large (max 10MB)"] |}))
  /\ (MAX_FILE_SIZE = 10485760
      /\ run keyed_env (ocr_request with_key (Some (oversized "text/plain"))) =
           ([], Normal {| res_status := 400;
                          res_body := VObj ["error" :-
                                            VStr "File too large (max 10MB)"] |})).
Proof.
  split.
  - apply (upload_too_large fetch pdfParse recognize TypeError open_env
             (ocr_request [] (Some (oversized "application/pdf")))
             (oversized "application/pdf") eq_refl eq_refl eq_refl).
    rewrite oversized_size. lia.
  - apply (upload_too_large fetch pdfParse recognize TypeError keyed_env
             (ocr_request with_key (Some (oversized "text/plain")))
             (oversized "text/plain") eq_refl eq_refl eq_refl).
    rewrite oversized_size. lia.
Defined.

Lemma ocr_mimetype_exact_run :
  let req := ocr_request [] (Some shouting_upload) in
  (forall b, In (EvPdfParse b) (log_of (run open_env req)) ->
     mimetype shouting_upload = lit "application/pdf")
  /\ (forall b l, In (EvRecognize b l) (log_of (run open_env req)) ->
       exists rest, mimetype shouting_upload = lit "image/" ++ rest)
  /\ run open_env req =
       ([], Normal {| res_status := 400;
                      res_body := VObj ["error" :-
                        VStr "Unsupported file type. Upload a PDF or image."] |}).
Proof.
  intros req.
  assert (Hs : size shouting_upload <= MAX_FILE_SIZE)
    by (vm_compute; discriminate).
  destruct (ocr_mimetype_exact fetch pdfParse recognize TypeError open_env req
              shouting_upload eq_refl eq_refl eq_refl Hs) as (H1 & H2 & H3).
  split; [exact H1 | split; [exact H2 | apply H3; left; reflexivity]].
Defined.

End Runs.

(* ================================================================== *)
(** ** The handlers as a whole *)

Lemma trim_idempotent (s : jstring) : trim (trim s) = trim s.
Proof.
  symmetry. apply is_trim_of_unique.
  destruct (trim_is_trim_of s) as (_ & _ & _ & _ & _ & Hstart & Hend).
  exists [], []. rewrite app_nil_r. now repeat split.
Qed.

Lemma trim_clean (s : jstring) :
  starts_clean (trim s) = true /\ ends_clean (trim s) = true.
Proof.
  destruct (trim_is_trim_of s) as (_ & _ & _ & _ & _ & Hstart & Hend).
  now split.
Qed.

Lemma trimmed_text_is_trimmed TE v t :
  trimmed_text TE v = Normal t -> exists s, t = trim s.
Proof.
  unfold trimmed_text, js_or, call_trim.
  destruct (truthy v); [destruct v|]; try discriminate.
  - intros [= <-]. now eexists.
  - intros [= <-]. now exists [].
Qed.

Section Handlers.

Variable fetch : value -> completion fetch_response.
Variable pdfParse : list byte -> completion value.
Variable recognize : list byte -> jstring -> completion value.
Variable TypeError : type_error_site -> value.

Local Abbreviation App := (app fetch pdfParse recognize TypeError).
Local Abbreviation Parse := (parse_handler fetch pdfParse TypeError).
Local Abbreviation Ocr := (ocr_handler pdfParse recognize TypeError).

Lemma get_prop_opt_get v p :
  nullish v = false -> get_prop TypeError v p = Normal (opt_get v p).
Proof. now destruct v. Qed.

Lemma js_or_object_not_nullish v : nullish (js_or v (VObj [])) = false.
Proof. unfold js_or. now destruct v as [| |[]|n|[]|]; simpl; try destruct (n =? 0). Qed.

(** The whole decision tree of the [/parse] handler. *)
Lemma parse_handler_cases req :
  let url := opt_get (js_or (body req) (VObj [])) file_url in
  let failed t e :=
    (t ++ [EvConsoleError "parse-url error:" e],
     Normal {| res_status := 500;
               res_body := VObj ["error" :- VStr "Failed to parse document"] |}) in
  Parse req =
    if negb (truthy url)
    then ([], Normal {| res_status := 400;
                        res_body := VObj ["error" :- VStr "Missing file_url"] |})
    else
      match fetch url with
      | Throw e => failed [EvFetch url] e
      | Normal r =>
          if negb (ok r)
          then ([EvFetch url],
                Normal {| res_status := 502;
                          res_body := VObj ["error" :-
                            VStr (("Failed to fetch PDF (" : jstring)
                                  ++ decimal (status r) ++ (")" : jstring))] |})
          else
            match arrayBuffer r with
            | Throw e => failed [EvFetch url] e
            | Normal buf =>
                match pdfParse buf with
                | Throw e => failed [EvFetch url; EvPdfParse buf] e
                | Normal d =>
                    match trimmed_text TypeError (opt_get d text) with
                    | Throw e => failed [EvFetch url; EvPdfParse buf] e
                    | Normal t =>
                        ([EvFetch url; EvPdfParse buf],
                         Normal {| res_status := 200;
                                   res_body := VObj ["extracted_text" :- VStr t] |})
                    end
                end
            end
      end.
Proof.
  intros url failed. unfold parse_handler.
  rewrite get_prop_opt_get by apply js_or_object_not_nullish.
  fold url. cbn [lift bind List.app].
  destruct (negb (truthy url)); [reflexivity|].
  destruct (fetch url) as [r|e]; [|reflexivity].
  cbn [call bind]. destruct (negb (ok r)); [reflexivity|].
  destruct (arrayBuffer r) as [buf|e]; [|reflexivity].
  cbn [lift bind List.app].
  destruct (pdfParse buf) as [d|e]; [|reflexivity].
  cbn [call bind List.app].
  now destruct (trimmed_text TypeError (opt_get d text)).
Qed.

(** The whole decision tree of the [/api/ocr] handler on a file. *)
Lemma ocr_handler_cases f :
  Ocr (Some f) =
    if str_eqb (mimetype f) "application/pdf" then
      match pdfParse (buffer f) with
      | Normal d =>
          match trimmed_text TypeError (opt_get d text) with
          | Normal t =>
              ([EvPdfParse (buffer f)],
               Normal {| res_status := 200;
                         res_body := VObj ["success" :- VBool true;
                                           "text" :- VStr t;
                                           "fileType" :- VStr (mimetype f)] |})
          | Throw e => ocr_failed TypeError [EvPdfParse (buffer f)] e
          end
      | Throw e => ocr_failed TypeError [EvPdfParse (buffer f)] e
      end
    else if startsWith (mimetype f) "image/" then
      match recognize (buffer f) "eng" with
      | Normal result =>
          match trimmed_text TypeError (opt_get (opt_get result data) text) with
          | Normal t =>
              ([EvRecognize (buffer f) "eng"],
               Normal {| res_status := 200;
                         res_body := VObj ["success" :- VBool true;
                                           "text" :- VStr t;
                                           "fileType" :- VStr (mimetype f)] |})
          | Throw e => ocr_failed TypeError [EvRecognize (buffer f) "eng"] e
          end
      | Throw e => ocr_failed TypeError [EvRecognize (buffer f) "eng"] e
      end
    else
      ([], Normal {| res_status := 400;
                     res_body := VObj ["error" :-
                       VStr "Unsupported file type. Upload a PDF or image."] |}).
Proof.
  destruct (str_eqb (mimetype f) "application/pdf") eqn:Epdf.
  - apply str_eqb_eq in Epdf. now apply ocr_pdf.
  - apply str_eqb_neq in Epdf.
    destruct (startsWith (mimetype f) "image/") eqn:Eimg.
    + now apply ocr_image.
    + now apply ocr_unsupported.
Qed.

Ltac parse_tree req :=
  rewrite (parse_handler_cases req);
  destruct (negb (truthy (opt_get (js_or (body req) (VObj [])) file_url)));
  [|destruct (fetch (opt_get (js_or (body req) (VObj [])) file_url)) as [?r|?e];
    [destruct (negb (ok r));
     [|destruct (arrayBuffer r) as [?buf|?e];
       [destruct (pdfParse buf) as [?d|?e];
        [destruct (trimmed_text TypeError (opt_get d text)) as [?t|?e] eqn:?Htext
        |]|]]|]].

(** X1. The [/parse] handler answers every request, whatever the
    collaborators do or throw: its promise never rejects, and the status
    is one of 200, 400, 500, 502. *)
Theorem parse_always_answers req :
  exists t r, parse_handler fetch pdfParse TypeError req = (t, Normal r)
              /\ In (res_status r) [200; 400; 500; 502].
Proof.
  parse_tree req; eexists _, _; (split; [reflexivity|]); simpl; tauto.
Qed.

(** X2. On [/parse] a 500 and a [console.error] line go together: the
    answer is 500 exactly when something was logged, and then the log ends
    with the one line "parse-url error:" carrying what was thrown, and the
    body is the fixed [{error: "Failed to parse document"}]. *)
Theorem parse_500_iff_logged req t r :
  Parse req = (t, Normal r) ->
  (res_status r = 500
   /\ res_body r = VObj ["error" :- VStr "Failed to parse document"]
   /\ exists e, logged t = [EvConsoleError "parse-url error:" e]
                /\ t = calls t ++ [EvConsoleError "parse-url error:" e])
  \/ (res_status r <> 500 /\ logged t = []).
Proof.
  revert t r. parse_tree req; intros t' r' [= <- <-];
    first [ right; split; [discriminate | reflexivity]
          | left; split; [reflexivity|]; split; [reflexivity|];
            eexists; split; reflexivity ].
Qed.

(** X3. On [/parse] the collaborators are called at most once each and in
    order: nothing, or one fetch of the body's [file_url], or that fetch
    followed by the extractor on exactly the bytes the fetch delivered.
    The OCR engine is never called. *)
Theorem parse_calls req :
  let url := opt_get (js_or (body req) (VObj [])) file_url in
  (truthy url = false /\ calls (log_of (Parse req)) = [])
  \/ (truthy url = true /\ calls (log_of (Parse req)) = [EvFetch url])
  \/ (truthy url = true
      /\ exists r buf,
           fetch url = Normal r /\ ok r = true /\ arrayBuffer r = Normal buf
           /\ calls (log_of (Parse req)) = [EvFetch url; EvPdfParse buf]).
Proof.
  intros url. rewrite (parse_handler_cases req). fold url.
  destruct (truthy url) eqn:Hu; [|left; now split].
  right. cbn [negb].
  destruct (fetch url) as [r|e] eqn:Hf; [|left; now split].
  destruct (ok r) eqn:Hok; [|left; now split]. cbn [negb].
  destruct (arrayBuffer r) as [buf|e] eqn:Hab; [|left; now split].
  right. split; [reflexivity|]. exists r, buf. repeat split; trivial.
  destruct (pdfParse buf) as [d|e]; [|reflexivity].
  now destruct (trimmed_text TypeError (opt_get d text)).
Qed.

(** X4. Whatever text the extractor produced, a 200 from [/parse]
    carries exactly one property, [extracted_text], and its string has no
    leading or trailing white space: trimming it again changes nothing. *)
Theorem parse_200_is_trimmed req t r :
  Parse req = (t, Normal r) ->
  res_status r = 200 ->
  exists s, res_body r = VObj ["extracted_text" :- VStr s]
            /\ trim s = s
            /\ starts_clean s = true /\ ends_clean s = true.
Proof.
  revert t r. parse_tree req; intros t' r' [= <- <-] Hs; try discriminate Hs.
  destruct (trimmed_text_is_trimmed _ _ _ Htext) as [s ->].
  exists (trim s). split; [reflexivity|].
  split; [apply trim_idempotent | apply trim_clean].
Qed.

Lemma trimmed_text_throws v e :
  trimmed_text TypeError v = Throw e -> exists site, e = TypeError site.
Proof.
  unfold trimmed_text, js_or, call_trim.
  destruct (truthy v); [destruct v|]; try discriminate;
    intros [= <-]; now eexists.
Qed.

Lemma ocr_failed_answers t e :
  nullish e = false ->
  exists m,
    get_prop TypeError e message = Normal m
    /\ ocr_failed TypeError t e =
         (t ++ [EvConsoleError "OCR upload error:" e],
          Normal (status_json 500 (VObj ["error" :- VStr "Failed to process file";
                                         "message" :- m]))).
Proof.
  intros He. unfold ocr_failed. rewrite (get_prop_opt_get e message He).
  now eexists.
Qed.

Ltac ocr_tree f :=
  rewrite (ocr_handler_cases f);
  destruct (str_eqb (mimetype f) "application/pdf") eqn:?Hpdf;
  [destruct (pdfParse (buffer f)) as [?d|?e] eqn:?Hcall;
   [destruct (trimmed_text TypeError (opt_get d text)) as [?t|?e] eqn:?Htext|]
  |destruct (startsWith (mimetype f) "image/") eqn:?Himg;
   [destruct (recognize (buffer f) "eng") as [?d|?e] eqn:?Hcall;
    [destruct (trimmed_text TypeError (opt_get (opt_get d data) text))
       as [?t|?e] eqn:?Htext|]
   |]].

(** X5. The [/api/ocr] handler answers every upload with 200, 400 or
    500, provided that what the collaborators throw is never [null] or
    [undefined] (and that the engine's [TypeError]s are objects, as they
    are). *)
Theorem ocr_answers req_file :
  (forall site, nullish (TypeError site) = false) ->
  (forall b e, pdfParse b = Throw e -> nullish e = false) ->
  (forall b l e, recognize b l = Throw e -> nullish e = false) ->
  exists t r, Ocr req_file = (t, Normal r)
              /\ In (res_status r) [200; 400; 500].
Proof using pdfParse recognize TypeError.
  intros HTE Hpdf Hocr.
  destruct req_file as [f|];
    [|eexists _, _; split; [reflexivity | simpl; auto]].
  ocr_tree f;
    try (eexists _, _; split; [reflexivity | simpl; auto]).
  - apply trimmed_text_throws in Htext as [site ->].
    destruct (ocr_failed_answers [EvPdfParse (buffer f)] _ (HTE site))
      as (m & _ & ->).
    eexists _, _; split; [reflexivity | simpl; auto].
  - destruct (ocr_failed_answers [EvPdfParse (buffer f)] _ (Hpdf _ _ Hcall))
      as (m & _ & ->).
    eexists _, _; split; [reflexivity | simpl; auto].
  - apply trimmed_text_throws in Htext as [site ->].
    destruct (ocr_failed_answers [EvRecognize (buffer f) "eng"] _ (HTE site))
      as (m & _ & ->).
    eexists _, _; split; [reflexivity | simpl; auto].
  - destruct (ocr_failed_answers [EvRecognize (buffer f) "eng"] _
                (Hocr _ _ _ Hcall)) as (m & _ & ->).
    eexists _, _; split; [reflexivity | simpl; auto].
Qed.

(** X6. A collaborator that rejects with [null] or [undefined] is not
    answered by the [/api/ocr] handler: reading [error.message] in the
    [catch] block throws, after the failure was logged, and the handler's
    promise rejects with that [TypeError].  The same rejection on
    [/parse], whose [catch] block reads nothing, is answered 500. *)
Theorem ocr_nullish_failure_escapes f e :
  nullish e = true ->
  (mimetype f = "application/pdf" ->
   pdfParse (buffer f) = Throw e ->
   Ocr (Some f) =
     ([EvPdfParse (buffer f); EvConsoleError "OCR upload error:" e],
      Throw (TypeError ReadOfNullish)))
  /\ (mimetype f <> "application/pdf" ->
      startsWith (mimetype f) "image/" = true ->
      recognize (buffer f) "eng" = Throw e ->
      Ocr (Some f) =
        ([EvRecognize (buffer f) "eng"; EvConsoleError "OCR upload error:" e],
         Throw (TypeError ReadOfNullish)))
  /\ (forall req props u r,
        body req = VObj props ->
        assoc "file_url" props = Some (VStr u) ->
        u <> [] ->
        fetch (VStr u) = Normal r ->
        ok r = true ->
        arrayBuffer r = Normal (buffer f) ->
        pdfParse (buffer f) = Throw e ->
        exists t, Parse req =
          (t, Normal {| res_status := 500;
                        res_body := VObj ["error" :-
                                          VStr "Failed to parse document"] |})).
Proof.
  intros He.
  assert (Hfail : forall t, ocr_failed TypeError t e =
            (t ++ [EvConsoleError "OCR upload error:" e],
             Throw (TypeError ReadOfNullish))).
  { intros t. apply ocr_failed_nullish. destruct e; try discriminate; tauto. }
  split; [|split].
  - intros Hm Hp. now rewrite ocr_pdf, Hp, Hfail.
  - intros Hm Hi Hp. now rewrite ocr_image, Hp, Hfail.
  - intros req props u r Hb Hu Hne Hf Hok Hab Hp.
    rewrite (parse_fetched fetch pdfParse TypeError req props u r (buffer f))
      by assumption.
    rewrite Hp. now eexists.
Qed.

(** X7. On [/api/ocr] too a 500 and a [console.error] line go together:
    the answer is 500 exactly when something was logged; then the log ends
    with the one line "OCR upload error:" carrying what was thrown, and
    the body is [{error: "Failed to process file", message}] with that
    value's [message], as serialised. *)
Theorem ocr_500_iff_logged req_file t r :
  Ocr req_file = (t, Normal r) ->
  (res_status r = 500
   /\ exists e m,
        get_prop TypeError e message = Normal m
        /\ res_body r = to_json (VObj ["error" :- VStr "Failed to process file";
                                       "message" :- m])
        /\ logged t = [EvConsoleError "OCR upload error:" e]
        /\ t = calls t ++ [EvConsoleError "OCR upload error:" e])
  \/ (res_status r <> 500 /\ logged t = []).
Proof.
  assert (Hfail : forall t0 e,
            calls t0 = t0 -> logged t0 = [] ->
            ocr_failed TypeError t0 e = (t, Normal r) ->
            res_status r = 500
            /\ exists e m,
                 get_prop TypeError e message = Normal m
                 /\ res_body r = to_json (VObj ["error" :- VStr "Failed to process file";
                                                "message" :- m])
                 /\ logged t = [EvConsoleError "OCR upload error:" e]
                 /\ t = calls t ++ [EvConsoleError "OCR upload error:" e]).
  { intros t0 e Hc Hl. unfold ocr_failed.
    destruct (get_prop TypeError e message) as [m|e'] eqn:Hm; [|discriminate].
    intros [= <- <-]. split; [reflexivity|]. exists e, m.
    split; [assumption|]. split; [reflexivity|].
    unfold logged, calls in *. rewrite !filter_app, Hl, Hc. simpl.
    rewrite app_nil_r. now split. }
  destruct req_file as [f|];
    [|intros [= <- <-]; right; split; [discriminate | reflexivity]].
  revert t r Hfail. ocr_tree f; intros t' r' Hfail H;
    first [ left; eapply Hfail; [| | exact H]; reflexivity
          | injection H as <- <-; right; split; [discriminate | reflexivity] ].
Qed.

(** X8. A 200 from [/api/ocr] means one collaborator was called, once,
    on the uploaded bytes, and nothing was logged; the declared type was
    [application/pdf] or began with [image/]; and the body is
    [{success: true, text, fileType}] with the declared type echoed and a
    text that is already trimmed. *)
Theorem ocr_200_shape req_file t r :
  Ocr req_file = (t, Normal r) ->
  res_status r = 200 ->
  exists f s,
    req_file = Some f
    /\ res_body r = VObj ["success" :- VBool true; "text" :- VStr s;
                          "fileType" :- VStr (mimetype f)]
    /\ trim s = s
    /\ ((mimetype f = "application/pdf" /\ t = [EvPdfParse (buffer f)])
        \/ (startsWith (mimetype f) "image/" = true
            /\ t = [EvRecognize (buffer f) "eng"])).
Proof.
  destruct req_file as [f|]; [|intros [= <- <-]; discriminate].
  assert (Hfail : forall t0 e, ocr_failed TypeError t0 e = (t, Normal r) ->
                               res_status r = 200 -> False).
  { intros t0 e. unfold ocr_failed.
    destruct (get_prop TypeError e message); [|discriminate].
    intros [= <- <-]. discriminate. }
  revert t r Hfail. ocr_tree f; intros t' r' Hfail H Hs;
    try (exfalso; exact (Hfail _ _ H Hs));
    try (injection H as <- <-; discriminate Hs);
    injection H as <- <-;
    destruct (trimmed_text_is_trimmed _ _ _ Htext) as [s ->];
    exists f, (trim s); (split; [reflexivity|]); (split; [reflexivity|]);
    (split; [apply trim_idempotent|]).
  - left. apply str_eqb_eq in Hpdf. now split.
  - right. now split.
Qed.

(* ------------------------------------------------------------------ *)
(** *** The application as a whole *)

Lemma app_cases env req :
  let unauthorized : M response :=
    ([], Normal {| res_status := 401;
                   res_body := VObj ["error" :- VStr "Unauthorized"] |}) in
  App env req =
    match route req with
    | GET_root | GET_healthz => health
    | POST_parse =>
        if key_accepted env req then Parse req else unauthorized
    | POST_api_ocr =>
        if key_accepted env req then
          match upload req with
          | None => Ocr None
          | Some f =>
              if MAX_FILE_SIZE <? size f
              then ([], Normal {| res_status := 400;
                                  res_body := VObj ["error" :-
                                    VStr "File too large (max 10MB)"] |})
              else Ocr (Some f)
          end
        else unauthorized
    end.
Proof.
  intros unauthorized. unfold app, ocr_chain, upload_single.
  destruct (route req); try reflexivity;
    (destruct (key_accepted env req) eqn:Hk;
     [rewrite verifyKey_accepted by assumption
     |now rewrite verifyKey_refused by assumption]);
    [reflexivity|].
  destruct (upload req) as [f|]; [|reflexivity].
  now destruct (MAX_FILE_SIZE <? size f).
Qed.

Lemma ocr_failed_normal t0 e t r :
  ocr_failed TypeError t0 e = (t, Normal r) ->
  exists m, r = status_json 500 (VObj ["error" :- VStr "Failed to process file";
                                       "message" :- m]).
Proof.
  unfold ocr_failed. destruct (get_prop TypeError e message) as [m|];
    [|discriminate].
  intros [= <- <-]. now exists m.
Qed.

(** The answers of the route table, for a request whose body was parsed:
    the statuses each route allows, and an [error] string exactly on the
    answers that are not 200. *)
Lemma routes_answer_shape env req t r :
  App env req = (t, Normal r) ->
  In (res_status r)
     match route req with
     | GET_root | GET_healthz => [200]
     | POST_parse => [200; 400; 401; 500; 502]
     | POST_api_ocr => [200; 400; 401; 500]
     end
  /\ (res_status r = 200 -> error_text (res_body r) = None)
  /\ (res_status r <> 200 -> exists s, error_text (res_body r) = Some s).
Proof.
  assert (Hfail : forall t0 e, ocr_failed TypeError t0 e = (t, Normal r) ->
            In (res_status r) [200; 400; 401; 500]
            /\ (res_status r = 200 -> error_text (res_body r) = None)
            /\ (res_status r <> 200 -> exists s, error_text (res_body r) = Some s)).
  { intros t0 e H. apply ocr_failed_normal in H as [m ->].
    split; [simpl; tauto|]. split; [discriminate|]. intros _. now eexists. }
  rewrite (app_cases env req).
  destruct (route req).
  1,2: intros [= <- <-]; split; [simpl; tauto|];
       split; [reflexivity | intros H; now contradiction H].
  - destruct (key_accepted env req);
      [|intros [= <- <-]; split; [simpl; tauto|];
        split; [discriminate | intros _; now eexists]].
    clear Hfail. revert t r. parse_tree req; intros t' r' [= <- <-];
      (split; [simpl; tauto|]);
      first [ split; [reflexivity | intros H; now contradiction H]
            | split; [discriminate | intros _; now eexists] ].
  - destruct (key_accepted env req);
      [|intros [= <- <-]; split; [simpl; tauto|];
        split; [discriminate | intros _; now eexists]].
    destruct (upload req) as [f|];
      [|intros [= <- <-]; split; [simpl; tauto|];
        split; [discriminate | intros _; now eexists]].
    destruct (MAX_FILE_SIZE <? size f);
      [intros [= <- <-]; split; [simpl; tauto|];
       split; [discriminate | intros _; now eexists]|].
    revert t r Hfail. ocr_tree f; intros t' r' Hfail H;
      try exact (Hfail _ _ H);
      injection H as <- <-; (split; [simpl; tauto|]);
      first [ split; [reflexivity | intros H; now contradiction H]
            | split; [discriminate | intros _; now eexists] ].
Qed.

(* ------------------------------------------------------------------ *)
(** *** The minimal [server.js] against the full one *)

Local Abbreviation MinimalParse := (ServerJs.parse_handler fetch pdfParse TypeError).

Lemma opt_get_js_or v p :
  nullish v = false -> opt_get (js_or v (VObj [])) p = opt_get v p.
Proof.
  unfold js_or. destruct v as [| |[]|n|[|c s]|props]; try discriminate;
    try reflexivity.
  intros _. simpl. now destruct (n =? 0).
Qed.

(** X10. On every request whose [req.body] is not [null] or [undefined]
    the [/parse] handler of the minimal [server.js] gives the same answer
    as the full server's, after the same collaborator calls, and logs the
    same failure; only the label of the log line differs. *)
Theorem minimal_parse_agrees req :
  nullish (body req) = false ->
  snd (MinimalParse req) = snd (Parse req)
  /\ calls (fst (MinimalParse req)) = calls (fst (Parse req))
  /\ thrown (fst (MinimalParse req)) = thrown (fst (Parse req)).
Proof.
  intros Hb. rewrite (parse_handler_cases req).
  unfold ServerJs.parse_handler.
  rewrite (get_prop_opt_get _ file_url Hb), (opt_get_js_or _ file_url Hb).
  set (url := opt_get (body req) file_url).
  cbn [lift bind List.app].
  destruct (negb (truthy url)); [now repeat split|].
  destruct (fetch url) as [r|e]; [|now repeat split].
  cbn [call bind]. destruct (negb (ok r)); [now repeat split|].
  destruct (arrayBuffer r) as [buf|e]; [|now repeat split].
  cbn [lift bind List.app].
  destruct (pdfParse buf) as [d|e]; [|now repeat split].
  cbn [call bind List.app].
  now destruct (trimmed_text TypeError (opt_get d text)).
Qed.

(** X11. Where [req.body] is [undefined] or [null] the two differ: the
    full server reads [req.body || {}] and answers 400 "Missing file_url";
    the minimal one destructures [req.body] itself, which throws, and
    answers 500 "Failed to parse document" after logging the [TypeError].
    Neither calls a collaborator. *)
Theorem minimal_parse_differs req :
  nullish (body req) = true ->
  Parse req =
    ([], Normal {| res_status := 400;
                   res_body := VObj ["error" :- VStr "Missing file_url"] |})
  /\ MinimalParse req =
       ([EvConsoleError "OCR parse error:" (TypeError ReadOfNullish)],
        Normal {| res_status := 500;
                  res_body := VObj ["error" :- VStr "Failed to parse document"] |}).
Proof.
  intros Hb. unfold parse_handler, ServerJs.parse_handler.
  destruct (body req); try discriminate; now split.
Qed.

End Handlers.

(* ================================================================== *)
(** ** The lazy loader *)

Module LazyLoaderProps.

Local Abbreviation eager_app := app.

Import LazyLoader.

Section Loader.

Variable FS : Type.
Variable accessSync : FS -> path -> completion unit.
Variable mkdirSync : FS -> path -> FS * completion unit.
Variable writeFileSync : FS -> path -> list byte -> FS * completion unit.
Variable require : FS -> jstring -> completion parser.
Variable dirname : path.
Variable fetch : value -> completion fetch_response.
Variable recognize : list byte -> jstring -> completion value.
Variable TypeError : type_error_site -> value.

Local Abbreviation GetPdfParse :=
  (getPdfParse FS accessSync mkdirSync writeFileSync require dirname).
Local Abbreviation LazyParse :=
  (LazyLoader.parse_handler FS accessSync mkdirSync writeFileSync require
     dirname fetch TypeError).
Local Abbreviation LazyOcr :=
  (LazyLoader.ocr_handler FS accessSync mkdirSync writeFileSync require
     dirname recognize TypeError).
Local Abbreviation LazyApp :=
  (LazyLoader.app FS accessSync mkdirSync writeFileSync require
     dirname fetch recognize TypeError).

(** The whole decision tree of the loader. *)
Lemma getPdfParse_cases (st : state FS) :
  let tf := testFile dirname in
  let td := testDir dirname in
  let fail t e fs' :=
    (t ++ [Ev (EvConsoleError "Failed to init pdf-parse:" e)],
     @Throw parser e, {| fs := fs'; pdfParse := None |}) in
  let loadit t fs' :=
    match require fs' "pdf-parse" with
    | Normal p =>
        (t ++ [IoRequire "pdf-parse"], Normal p,
         {| fs := fs'; pdfParse := Some p |})
    | Throw e => fail (t ++ [IoRequire "pdf-parse"]) e fs'
    end in
  GetPdfParse st =
    match pdfParse FS st with
    | Some p => ([], Normal p, st)
    | None =>
        match accessSync (fs FS st) tf with
        | Normal _ => loadit [IoAccess tf] (fs FS st)
        | Throw _ =>
            match mkdirSync (fs FS st) td with
            | (fs1, Throw e) => fail [IoAccess tf; IoMkdir td] e fs1
            | (fs1, Normal _) =>
                match writeFileSync fs1 tf minimalPDF with
                | (fs2, Throw e) =>
                    fail [IoAccess tf; IoMkdir td; IoWriteFile tf minimalPDF] e fs2
                | (fs2, Normal _) =>
                    loadit [IoAccess tf; IoMkdir td; IoWriteFile tf minimalPDF] fs2
                end
            end
        end
    end.
Proof.
  intros tf td fail loadit. destruct st as [f [p|]]; [reflexivity|].
  unfold getPdfParse, bindS, try_catchS, read_pdfParse, access, mkdir,
    writeFile, load, assign_pdfParse, retS, throwS, console_errorS.
  cbn [fs pdfParse]. fold tf td.
  destruct (accessSync f tf) as [u|e0].
  - subst loadit fail. cbn.
    destruct (require f _) as [p|e]; reflexivity.
  - destruct (mkdirSync f td) as [fs1 [u|e]]; [|reflexivity].
    cbn [fs pdfParse].
    destruct (writeFileSync fs1 tf minimalPDF) as [fs2 [u'|e]]; [|reflexivity].
    subst loadit fail. cbn.
    destruct (require fs2 _) as [p|e]; reflexivity.
Qed.

Ltac loader_tree st :=
  rewrite (getPdfParse_cases st); cbv zeta;
  let f := fresh "f" in
  destruct st as [f [?p|]];
  [|cbn [fs pdfParse];
    destruct (accessSync f (testFile dirname)) as [?u|?e] eqn:?Haccess;
    [destruct (require f _) as [?p|?e] eqn:?Hload
    |destruct (mkdirSync f (testDir dirname)) as [?fs1 [?u|?e]] eqn:?Hmkdir;
     [destruct (writeFileSync fs1 (testFile dirname) minimalPDF)
        as [?fs2 [?u|?e]] eqn:?Hwrite;
      [destruct (require fs2 _) as [?p|?e] eqn:?Hload|]
     |]]].

(** X12. The loader memoises: when [getPdfParse] returns a parser, the
    module variable holds it, and the next call returns the same parser
    without touching the file system or [require], leaving the state as it
    is. *)
Theorem getPdfParse_memoises st t p st' :
  GetPdfParse st = (t, Normal p, st') ->
  pdfParse FS st' = Some p
  /\ GetPdfParse st' = ([], Normal p, st').
Proof.
  intros H. assert (Hc : pdfParse FS st' = Some p).
  { revert H. loader_tree st; intros [= <- <- <-]; reflexivity. }
  split; [exact Hc|].
  rewrite (getPdfParse_cases st'). cbv zeta. now rewrite Hc.
Qed.

(** X13. A failed load is not remembered: when [getPdfParse] throws, the
    module variable was empty and stays empty, so the next call tries
    again; what is thrown is what the file system or [require] threw, and
    it was logged as "Failed to init pdf-parse:" as the last thing done. *)
Theorem getPdfParse_failure_not_cached st t e st' :
  GetPdfParse st = (t, Throw e, st') ->
  pdfParse FS st = None
  /\ pdfParse FS st' = None
  /\ (exists t0, t = t0 ++ [Ev (EvConsoleError "Failed to init pdf-parse:" e)]
                 /\ events t0 = [])
  /\ (snd (mkdirSync (fs FS st) (testDir dirname)) = Throw e
      \/ (exists fs1, snd (writeFileSync fs1 (testFile dirname) minimalPDF) = Throw e)
      \/ (exists fs1, require fs1 "pdf-parse" = Throw e)).
Proof.
  loader_tree st; intros [= <- <- <-]; try discriminate;
    (split; [reflexivity|]); (split; [reflexivity|]);
    (split;
     [match goal with
      | |- exists t0, ?l = _ /\ _ => exists (removelast l); now split
      end|]).
  - right; right. now exists f.
  - right; right. now exists fs2.
  - right; left. exists fs1. now rewrite Hwrite.
  - left. reflexivity.
Qed.


(** X15. A file that is already there is left alone: when the module is
    loaded already, or [fs.accessSync] finds the file, the loader makes no
    directory and writes nothing, and the file system is as before. *)
Theorem getPdfParse_keeps_existing_file st :
  (exists p, pdfParse FS st = Some p)
  \/ (exists u, accessSync (fs FS st) (testFile dirname) = Normal u) ->
  fs FS (snd (GetPdfParse st)) = fs FS st
  /\ Forall (fun i =>
               match i with
               | IoMkdir _ | IoWriteFile _ _ => False
               | _ => True
               end)
            (fst (fst (GetPdfParse st))).
Proof.
  intros H. revert H. loader_tree st; intros [[q Hq] | [u' Hu]];
    try discriminate; cbn [fst snd fs List.app];
    (split; [reflexivity | repeat constructor]).
Qed.

(* ------------------------------------------------------------------ *)
(** *** The handlers of the lazy server *)

Ltac tidy_log := cbn [List.app]; rewrite ?app_nil_r, <- ?app_assoc; cbn [List.app].

(** The whole decision tree of the lazy [/parse] handler. *)
Lemma lazy_parse_cases req st :
  let url := opt_get (js_or (body req) (VObj [])) file_url in
  let failed t e st' :=
    (t ++ [Ev (EvConsoleError "parse-url error:" e)],
     Normal {| res_status := 500;
               res_body := VObj ["error" :- VStr "Failed to parse document"] |},
     st' : state FS) in
  LazyParse req st =
    if negb (truthy url)
    then ([], Normal {| res_status := 400;
                        res_body := VObj ["error" :- VStr "Missing file_url"] |},
          st)
    else
      match fetch url with
      | Throw e => failed [Ev (EvFetch url)] e st
      | Normal r =>
          if negb (ok r)
          then ([Ev (EvFetch url)],
                Normal {| res_status := 502;
                          res_body := VObj ["error" :-
                            VStr (("Failed to fetch PDF (" : jstring)
                                  ++ decimal (status r) ++ (")" : jstring))] |},
                st)
          else
            match arrayBuffer r with
            | Throw e => failed [Ev (EvFetch url)] e st
            | Normal buf =>
                match GetPdfParse st with
                | (tl, Throw e, st1) => failed (Ev (EvFetch url) :: tl) e st1
                | (tl, Normal p, st1) =>
                    let t := Ev (EvFetch url) :: tl ++ [Ev (EvPdfParse buf)] in
                    match p buf with
                    | Throw e => failed t e st1
                    | Normal d =>
                        match trimmed_text TypeError (opt_get d text) with
                        | Throw e => failed t e st1
                        | Normal s =>
                            (t, Normal {| res_status := 200;
                                          res_body := VObj ["extracted_text" :- VStr s] |},
                             st1)
                        end
                    end
                end
            end
      end.
Proof.
  intros url failed. unfold LazyLoader.parse_handler.
  unfold bindS at 1. unfold try_catchS, liftS at 1.
  rewrite (get_prop_opt_get TypeError _ file_url (js_or_object_not_nullish _)).
  fold url. unfold bindS, callS, liftS, retS, console_errorS.
  destruct (negb (truthy url)); [reflexivity|].
  destruct (fetch url) as [r|e]; [|reflexivity].
  destruct (negb (ok r)); [reflexivity|].
  destruct (arrayBuffer r) as [buf|e]; [|reflexivity].
  destruct (GetPdfParse st) as [[tl [p|e]] st1]; [|subst failed; now tidy_log].
  destruct (p buf) as [d|e]; [|subst failed; now tidy_log].
  destruct (trimmed_text TypeError (opt_get d text)) as [s|e];
    subst failed; now tidy_log.
Qed.


(** The whole decision tree of the lazy [/api/ocr] handler on a file. *)
Lemma lazy_ocr_cases f st :
  let failed t e st' :=
    (t ++ [Ev (EvConsoleError "OCR upload error:" e)],
     snd (ocr_failed TypeError [] e), st' : state FS) in
  let answer t s st' :=
    (t : list io,
     Normal {| res_status := 200;
               res_body := VObj ["success" :- VBool true; "text" :- VStr s;
                                 "fileType" :- VStr (mimetype f)] |},
     st' : state FS) in
  LazyOcr (Some f) st =
    if str_eqb (mimetype f) "application/pdf" then
      match GetPdfParse st with
      | (tl, Throw e, st1) => failed tl e st1
      | (tl, Normal p, st1) =>
          let t := tl ++ [Ev (EvPdfParse (buffer f))] in
          match p (buffer f) with
          | Throw e => failed t e st1
          | Normal d =>
              match trimmed_text TypeError (opt_get d text) with
              | Throw e => failed t e st1
              | Normal s => answer t s st1
              end
          end
      end
    else if startsWith (mimetype f) "image/" then
      let t := [Ev (EvRecognize (buffer f) "eng")] in
      match recognize (buffer f) "eng" with
      | Throw e => failed t e st
      | Normal d =>
          match trimmed_text TypeError (opt_get (opt_get d data) text) with
          | Throw e => failed t e st
          | Normal s => answer t s st
          end
      end
    else
      ([], Normal {| res_status := 400;
                     res_body := VObj ["error" :-
                       VStr "Unsupported file type. Upload a PDF or image."] |},
       st).
Proof.
  intros failed answer. unfold LazyLoader.ocr_handler.
  unfold try_catchS, bindS, callS, liftS, retS, console_errorS.
  destruct (str_eqb (mimetype f) "application/pdf").
  - destruct (GetPdfParse st) as [[tl [p|e]] st1].
    + destruct (p (buffer f)) as [d|e].
      * destruct (trimmed_text TypeError (opt_get d text)) as [s|e].
        -- subst answer. now tidy_log.
        -- subst failed. unfold ocr_failed.
           destruct (get_prop TypeError e message); now tidy_log.
      * subst failed. unfold ocr_failed.
        destruct (get_prop TypeError e message); now tidy_log.
    + subst failed. unfold ocr_failed.
      destruct (get_prop TypeError e message); now tidy_log.
  - destruct (startsWith (mimetype f) "image/"); [|reflexivity].
    destruct (recognize (buffer f) "eng") as [d|e].
    + destruct (trimmed_text TypeError (opt_get (opt_get d data) text)) as [s|e].
      * subst answer. now tidy_log.
      * subst failed. unfold ocr_failed.
        destruct (get_prop TypeError e message); now tidy_log.
    + subst failed. unfold ocr_failed.
      destruct (get_prop TypeError e message); now tidy_log.
Qed.

Lemma events_app (a b : list io) : events (a ++ b) = events a ++ events b.
Proof.
  induction a as [|[] a IH]; simpl; trivial. now rewrite IH.
Qed.

Lemma events_map_Ev (l : list event) : events (map Ev l) = l.
Proof. induction l as [|e l IH]; simpl; [reflexivity | now rewrite IH]. Qed.

Lemma touches_map_Ev (l : list event) : touches (map Ev l) = [].
Proof. now induction l. Qed.

Lemma getPdfParse_success_events st tl p st1 :
  GetPdfParse st = (tl, Normal p, st1) -> events tl = [].
Proof. loader_tree st; intros [= <- <- <-]; reflexivity. Qed.

Lemma ocr_failed_parts t e :
  fst (ocr_failed TypeError t e) = t ++ [EvConsoleError "OCR upload error:" e]
  /\ snd (ocr_failed TypeError t e) = snd (ocr_failed TypeError [] e).
Proof. unfold ocr_failed. now destruct (get_prop TypeError e message). Qed.

Lemma lazy_verifyKey_accepted env req (next : ST FS response) :
  key_accepted env req = true -> LazyLoader.verifyKey FS env req next = next.
Proof.
  unfold key_accepted, LazyLoader.verifyKey. intros H.
  destruct (negb (truthy (cfgKey env))); [reflexivity|].
  simpl in H. now rewrite H.
Qed.

Lemma lazy_verifyKey_refused env req (next : ST FS response) st :
  key_accepted env req = false ->
  LazyLoader.verifyKey FS env req next st =
    ([], Normal {| res_status := 401;
                   res_body := VObj ["error" :- VStr "Unauthorized"] |}, st).
Proof.
  unfold key_accepted, LazyLoader.verifyKey. intros H.
  apply orb_false_iff in H as [H1 H2]. now rewrite H1, H2.
Qed.

Lemma lazy_app_cases env req st :
  let only (r : response) : list io * completion response * state FS :=
    ([], Normal r, st) in
  LazyApp env req st =
    match route req with
    | GET_root | GET_healthz =>
        ([], snd health, st)
    | POST_parse =>
        if key_accepted env req then LazyParse req st
        else only {| res_status := 401;
                     res_body := VObj ["error" :- VStr "Unauthorized"] |}
    | POST_api_ocr =>
        if key_accepted env req then
          match upload req with
          | None => LazyOcr None st
          | Some f =>
              if MAX_FILE_SIZE <? size f
              then only {| res_status := 400;
                           res_body := VObj ["error" :-
                             VStr "File too large (max 10MB)"] |}
              else LazyOcr (Some f) st
          end
        else only {| res_status := 401;
                     res_body := VObj ["error" :- VStr "Unauthorized"] |}
    end.
Proof.
  intros only. unfold LazyLoader.app, upload_single.
  destruct (route req); try reflexivity;
    (destruct (key_accepted env req) eqn:Hk;
     [rewrite lazy_verifyKey_accepted by assumption
     |now rewrite lazy_verifyKey_refused by assumption]);
    [reflexivity|].
  destruct (upload req) as [f|]; [|reflexivity].
  now destruct (MAX_FILE_SIZE <? size f).
Qed.

Ltac untouched :=
  cbn [fst snd events List.app]; repeat split; trivial; now left.

(** X16. Once pdf-parse loads, the lazy server is the eager one: if
    [getPdfParse] would return the parser [p] in the current state, then
    every request gets the answer the eager server gives with [p] as its
    [pdfParse], after the same collaborator calls and log lines in the
    same order; and the state afterwards is either untouched or the state
    the loader leaves. *)
Theorem lazy_answers_as_eager env req st tl p st1 :
  GetPdfParse st = (tl, Normal p, st1) ->
  let eager := eager_app fetch p recognize TypeError env req in
  snd (fst (LazyApp env req st)) = snd eager
  /\ events (fst (fst (LazyApp env req st))) = fst eager
  /\ (snd (LazyApp env req st) = st \/ snd (LazyApp env req st) = st1).
Proof.
  intros Hload eager. subst eager.
  pose proof (getPdfParse_success_events _ _ _ _ Hload) as Htl.
  rewrite (lazy_app_cases env req st), (app_cases fetch p recognize TypeError env req).
  cbv zeta.
  destruct (route req); [untouched | untouched | |].
  - destruct (key_accepted env req); [|untouched].
    rewrite (lazy_parse_cases req st), (parse_handler_cases fetch p TypeError req).
    cbv zeta. rewrite Hload.
    destruct (negb (truthy _)); [untouched|].
    destruct (fetch _) as [r|e]; [|untouched].
    destruct (negb (ok r)); [untouched|].
    destruct (arrayBuffer r) as [buf|e]; [|untouched].
    destruct (p buf) as [d|e];
      [destruct (trimmed_text TypeError (opt_get d text)) as [s|e]|];
      cbn [fst snd]; rewrite ?events_app; cbn [events]; rewrite ?events_app, Htl;
      repeat split; trivial; now right.
  - destruct (key_accepted env req); [|untouched].
    destruct (upload req) as [f|]; [|untouched].
    destruct (MAX_FILE_SIZE <? size f); [untouched|].
    rewrite (lazy_ocr_cases f st), (ocr_handler_cases p recognize TypeError f).
    cbv zeta. rewrite Hload.
    destruct (str_eqb (mimetype f) "application/pdf").
    + destruct (p (buffer f)) as [d|e];
        [destruct (trimmed_text TypeError (opt_get d text)) as [s|e]|];
        try destruct (ocr_failed_parts [EvPdfParse (buffer f)] e) as [-> ->];
        cbn [fst snd]; rewrite ?events_app, ?Htl; cbn [events List.app];
        repeat split; trivial; now right.
    + destruct (startsWith (mimetype f) "image/"); [|untouched].
      destruct (recognize (buffer f) "eng") as [d|e];
        [destruct (trimmed_text TypeError (opt_get (opt_get d data) text))
           as [s|e]|];
        try destruct (ocr_failed_parts [EvRecognize (buffer f) "eng"] e)
          as [-> ->];
        cbn [fst snd events List.app]; repeat split; trivial; now left.
Qed.

(** X17. When the loader fails, the extractor is never called and the
    request is answered 500: [/parse], after its fetch, with the fixed
    "Failed to parse document"; [/api/ocr] on a PDF with "Failed to
    process file" and the message of what the loader threw.  The state is
    the one the loader left, its module variable still empty. *)
Theorem lazy_loader_failure st tl e st1 :
  GetPdfParse st = (tl, Throw e, st1) ->
  (forall req props u r buf,
     body req = VObj props ->
     assoc "file_url" props = Some (VStr u) ->
     u <> [] ->
     fetch (VStr u) = Normal r ->
     ok r = true ->
     arrayBuffer r = Normal buf ->
     LazyParse req st =
       (Ev (EvFetch (VStr u)) :: tl
          ++ [Ev (EvConsoleError "parse-url error:" e)],
        Normal {| res_status := 500;
                  res_body := VObj ["error" :- VStr "Failed to parse document"] |},
        st1))
  /\ (forall f,
        mimetype f = "application/pdf" ->
        nullish e = false ->
        LazyOcr (Some f) st =
          (tl ++ [Ev (EvConsoleError "OCR upload error:" e)],
           Normal (status_json 500
                     (VObj ["error" :- VStr "Failed to process file";
                            "message" :- opt_get e message])),
           st1)).
Proof.
  intros Hload. split.
  - intros req props u r buf Hb Hu Hne Hf Hok Hab.
    rewrite (lazy_parse_cases req st). cbv zeta.
    rewrite Hb. cbn [js_or truthy opt_get].
    change (key file_url) with (lit "file_url"). rewrite Hu.
    destruct u as [|c u]; [contradiction|].
    cbn [truthy negb]. now rewrite Hf, Hok, Hab, Hload.
  - intros f Hm He.
    rewrite (lazy_ocr_cases f st). cbv zeta.
    rewrite Hm at 1. rewrite str_eqb_refl, Hload.
    unfold ocr_failed. now rewrite (get_prop_opt_get TypeError e message He).
Qed.

(** X18. Requests that extract no PDF never reach the loader: on the
    health routes, on a request the guard refuses, and on [/api/ocr]
    without a file or with a file that is not declared [application/pdf],
    the module variable and the file system stay as they are, the log has
    no file-system or [require] operation, and the answer and the log are
    those of the eager server, whatever its [pdfParse]. *)
Theorem lazy_untouched env req st p0 :
  route req = GET_root \/ route req = GET_healthz
  \/ key_accepted env req = false
  \/ (route req = POST_api_ocr
      /\ forall f, upload req = Some f -> mimetype f <> "application/pdf") ->
  let eager := eager_app fetch p0 recognize TypeError env req in
  LazyApp env req st = (map Ev (fst eager), snd eager, st)
  /\ touches (fst (fst (LazyApp env req st))) = [].
Proof.
  intros H eager.
  assert (E : LazyApp env req st = (map Ev (fst eager), snd eager, st)).
  { subst eager.
    rewrite (lazy_app_cases env req st),
      (app_cases fetch p0 recognize TypeError env req). cbv zeta.
    destruct H as [-> | [-> | [Hk | [Hr Hf]]]]; try reflexivity.
    - rewrite Hk. now destruct (route req).
    - rewrite Hr. destruct (key_accepted env req); [|reflexivity].
      destruct (upload req) as [f|] eqn:Hu; [|reflexivity].
      destruct (MAX_FILE_SIZE <? size f); [reflexivity|].
      specialize (Hf f eq_refl). apply str_eqb_neq in Hf.
      rewrite (lazy_ocr_cases f st), (ocr_handler_cases p0 recognize TypeError f).
      cbv zeta. rewrite Hf.
      destruct (startsWith (mimetype f) "image/"); [|reflexivity].
      destruct (recognize (buffer f) "eng") as [d|e];
        [destruct (trimmed_text TypeError (opt_get (opt_get d data) text))
           as [s|e]|];
        try destruct (ocr_failed_parts [EvRecognize (buffer f) "eng"] e)
          as [-> ->];
        reflexivity. }
  split; [exact E|]. rewrite E. apply touches_map_Ev.
Qed.

(** X19. After the first successful load nothing is loaded again: in a
    state whose module variable holds a parser [p], every request leaves
    the state exactly as it is (so the parser is never dropped or
    replaced), performs no file-system or [require] operation, and is
    answered and logged exactly as by the eager server with [p]. *)
Theorem lazy_warm env req st p :
  pdfParse FS st = Some p ->
  let eager := eager_app fetch p recognize TypeError env req in
  LazyApp env req st = (map Ev (fst eager), snd eager, st)
  /\ touches (fst (fst (LazyApp env req st))) = [].
Proof.
  intros Hp eager.
  assert (Hload : GetPdfParse st = ([], Normal p, st)).
  { rewrite (getPdfParse_cases st). cbv zeta. now rewrite Hp. }
  assert (E : LazyApp env req st = (map Ev (fst eager), snd eager, st)).
  { subst eager.
    rewrite (lazy_app_cases env req st),
      (app_cases fetch p recognize TypeError env req). cbv zeta.
    destruct (route req); try reflexivity.
    - destruct (key_accepted env req); [|reflexivity].
      rewrite (lazy_parse_cases req st), (parse_handler_cases fetch p TypeError req).
      cbv zeta. rewrite Hload.
      destruct (negb (truthy _)); [reflexivity|].
      destruct (fetch _) as [r|e]; [|reflexivity].
      destruct (negb (ok r)); [reflexivity|].
      destruct (arrayBuffer r) as [buf|e]; [|reflexivity].
      destruct (p buf) as [d|e];
        [destruct (trimmed_text TypeError (opt_get d text)) as [s|e]|];
        reflexivity.
    - destruct (key_accepted env req); [|reflexivity].
      destruct (upload req) as [f|]; [|reflexivity].
      destruct (MAX_FILE_SIZE <? size f); [reflexivity|].
      rewrite (lazy_ocr_cases f st), (ocr_handler_cases p recognize TypeError f).
      cbv zeta. rewrite Hload.
      destruct (str_eqb (mimetype f) "application/pdf").
      + destruct (p (buffer f)) as [d|e];
          [destruct (trimmed_text TypeError (opt_get d text)) as [s|e]|];
          try destruct (ocr_failed_parts [EvPdfParse (buffer f)] e) as [-> ->];
          reflexivity.
      + destruct (startsWith (mimetype f) "image/"); [|reflexivity].
        destruct (recognize (buffer f) "eng") as [d|e];
          [destruct (trimmed_text TypeError (opt_get (opt_get d data) text))
             as [s|e]|];
          try destruct (ocr_failed_parts [EvRecognize (buffer f) "eng"] e)
            as [-> ->];
          reflexivity. }
  split; [exact E|]. rewrite E. apply touches_map_Ev.
Qed.

End Loader.
End LazyLoaderProps.

(* ================================================================== *)
(** ** Concrete runs of the handlers and of the loader *)

Module MoreRuns.
Import Sample SampleFs.

Abbreviation parse := (parse_handler fetch pdfParse TypeError).
Abbreviation ocr := (ocr_handler pdfParse recognize TypeError).
Abbreviation run := (app fetch pdfParse recognize TypeError).

Lemma parse_500_iff_logged_run :
  exists t r,
    parse junk_request = (t, Normal r)
    /\ ((res_status r = 500
         /\ res_body r = VObj ["error" :- VStr "Failed to parse document"]
         /\ exists e, logged t = [EvConsoleError "parse-url error:" e]
                      /\ t = calls t ++ [EvConsoleError "parse-url error:" e])
        \/ (res_status r <> 500 /\ logged t = [])).
Proof.
  eexists _, _. split; [reflexivity|].
  apply (parse_500_iff_logged fetch pdfParse TypeError junk_request).
  reflexivity.
Defined.

Lemma parse_200_is_trimmed_run :
  exists t r,
    parse report_request = (t, Normal r)
    /\ exists s, res_body r = VObj ["extracted_text" :- VStr s]
                 /\ trim s = s
                 /\ starts_clean s = true /\ ends_clean s = true.
Proof.
  eexists _, _. split; [reflexivity|].
  apply (parse_200_is_trimmed fetch pdfParse TypeError report_request
           [EvFetch (VStr "https://files.example/report.pdf");
            EvPdfParse pdf_bytes]);
    reflexivity.
Defined.

Lemma sample_TypeError_object site : nullish (TypeError site) = false.
Proof. now destruct site. Qed.

Lemma sample_pdfParse_throws_objects b e :
  pdfParse b = Throw e -> nullish e = false.
Proof.
  unfold pdfParse. destruct (bytes_eqb b pdf_bytes); [discriminate|].
  now intros [= <-].
Qed.

Lemma sample_recognize_throws_objects b l e :
  recognize b l = Throw e -> nullish e = false.
Proof.
  unfold recognize. destruct (bytes_eqb b png_bytes); [discriminate|].
  now intros [= <-].
Qed.

Lemma ocr_answers_run :
  exists t r, ocr (Some bad_png_upload) = (t, Normal r)
              /\ In (res_status r) [200; 400; 500].
Proof.
  exact (ocr_answers pdfParse recognize TypeError (Some bad_png_upload)
           sample_TypeError_object
           sample_pdfParse_throws_objects
           sample_recognize_throws_objects).
Defined.

Lemma ocr_nullish_failure_escapes_run :
  ocr_handler SampleFs.reject_undefined recognize TypeError (Some pdf_upload) =
    ([EvPdfParse pdf_bytes; EvConsoleError "OCR upload error:" VUndef],
     Throw (TypeError ReadOfNullish))
  /\ ocr_handler pdfParse (fun b _ => SampleFs.reject_undefined b) TypeError
       (Some png_upload) =
       ([EvRecognize png_bytes "eng"; EvConsoleError "OCR upload error:" VUndef],
        Throw (TypeError ReadOfNullish))
  /\ exists t,
       parse_handler fetch SampleFs.reject_undefined TypeError report_request =
         (t, Normal {| res_status := 500;
                       res_body := VObj ["error" :-
                                         VStr "Failed to parse document"] |}).
Proof.
  split; [|split].
  - exact (proj1 (ocr_nullish_failure_escapes fetch SampleFs.reject_undefined
                    recognize TypeError pdf_upload VUndef eq_refl)
             eq_refl eq_refl).
  - refine (proj1 (proj2 (ocr_nullish_failure_escapes fetch pdfParse
                            (fun b _ => SampleFs.reject_undefined b)
                            TypeError png_upload VUndef eq_refl))
              _ eq_refl eq_refl).
    discriminate.
  - refine (proj2 (proj2 (ocr_nullish_failure_escapes fetch
                            SampleFs.reject_undefined recognize TypeError
                            pdf_upload VUndef eq_refl))
              report_request _ "https://files.example/report.pdf" _
              eq_refl eq_refl _ eq_refl eq_refl eq_refl eq_refl).
    discriminate.
Defined.

Lemma ocr_500_iff_logged_run :
  exists t r,
    ocr (Some bad_pdf_upload) = (t, Normal r)
    /\ ((res_status r = 500
         /\ exists e m,
              get_prop TypeError e message = Normal m
              /\ res_body r =
                   to_json (VObj ["error" :- VStr "Failed to process file";
                                  "message" :- m])
              /\ logged t = [EvConsoleError "OCR upload error:" e]
              /\ t = calls t ++ [EvConsoleError "OCR upload error:" e])
        \/ (res_status r <> 500 /\ logged t = [])).
Proof.
  eexists _, _. split; [reflexivity|].
  apply (ocr_500_iff_logged pdfParse recognize TypeError (Some bad_pdf_upload)).
  reflexivity.
Defined.

Lemma ocr_200_shape_run :
  exists t r,
    ocr (Some png_upload) = (t, Normal r)
    /\ exists f s,
         Some png_upload = Some f
         /\ res_body r = VObj ["success" :- VBool true; "text" :- VStr s;
                               "fileType" :- VStr (mimetype f)]
         /\ trim s = s
         /\ ((mimetype f = "application/pdf" /\ t = [EvPdfParse (buffer f)])
             \/ (startsWith (mimetype f) "image/" = true
                 /\ t = [EvRecognize (buffer f) "eng"])).
Proof.
  eexists _, _. split; [reflexivity|].
  apply (ocr_200_shape pdfParse recognize TypeError (Some png_upload));
    reflexivity.
Defined.

Lemma minimal_parse_agrees_run :
  let minimal := ServerJs.parse_handler fetch pdfParse TypeError in
  snd (minimal junk_request) = snd (parse junk_request)
  /\ calls (fst (minimal junk_request)) = calls (fst (parse junk_request))
  /\ thrown (fst (minimal junk_request)) = thrown (fst (parse junk_request)).
Proof.
  exact (minimal_parse_agrees fetch pdfParse TypeError junk_request eq_refl).
Defined.

Lemma minimal_parse_differs_run :
  let req := parse_request [] VUndef in
  parse req =
    ([], Normal {| res_status := 400;
                   res_body := VObj ["error" :- VStr "Missing file_url"] |})
  /\ ServerJs.parse_handler fetch pdfParse TypeError req =
       ([EvConsoleError "OCR parse error:" (TypeError ReadOfNullish)],
        Normal {| res_status := 500;
                  res_body := VObj ["error" :- VStr "Failed to parse document"] |}).
Proof.
  exact (minimal_parse_differs fetch pdfParse TypeError
           (parse_request [] VUndef) eq_refl).
Defined.

End MoreRuns.

Module LoaderRuns.
Import Sample SampleFs.

Abbreviation tf := (LazyLoader.testFile dirname).
Abbreviation td := (LazyLoader.testDir dirname).
Abbreviation load :=
  (LazyLoader.getPdfParse FS accessSync mkdirSync writeFileSync require dirname).
Abbreviation load_ro :=
  (LazyLoader.getPdfParse FS accessSync mkdirSync writeFileSync_ro require dirname).
Abbreviation lazy :=
  (LazyLoader.app FS accessSync mkdirSync writeFileSync require dirname
     fetch recognize TypeError).

(** A cold start: the file is missing, is written, and the module loads. *)
Lemma cold_start :
  load cold =
    ([LazyLoader.IoAccess tf; LazyLoader.IoMkdir td;
      LazyLoader.IoWriteFile tf LazyLoader.minimalPDF;
      LazyLoader.IoRequire "pdf-parse"],
     Normal pdfParse, warm).
Proof. reflexivity. Qed.

(** On a read-only file system the write fails and so does the load. *)
Lemma cold_start_read_only :
  load_ro cold =
    ([LazyLoader.IoAccess tf; LazyLoader.IoMkdir td;
      LazyLoader.IoWriteFile tf LazyLoader.minimalPDF;
      LazyLoader.Ev (EvConsoleError "Failed to init pdf-parse:" EROFS)],
     Throw EROFS, cold).
Proof. reflexivity. Qed.

Lemma getPdfParse_memoises_run :
  LazyLoader.pdfParse FS warm = Some pdfParse
  /\ load warm = ([], Normal pdfParse, warm).
Proof.
  exact (LazyLoaderProps.getPdfParse_memoises FS accessSync mkdirSync
           writeFileSync require dirname cold _ pdfParse warm cold_start).
Defined.

Lemma getPdfParse_failure_not_cached_run :
  LazyLoader.pdfParse FS cold = None
  /\ LazyLoader.pdfParse FS cold = None
  /\ (exists t0,
        [LazyLoader.IoAccess tf; LazyLoader.IoMkdir td;
         LazyLoader.IoWriteFile tf LazyLoader.minimalPDF;
         LazyLoader.Ev (EvConsoleError "Failed to init pdf-parse:" EROFS)]
        = t0 ++ [LazyLoader.Ev (EvConsoleError "Failed to init pdf-parse:" EROFS)]
        /\ LazyLoader.events t0 = [])
  /\ (snd (mkdirSync (LazyLoader.fs FS cold) td) = Throw EROFS
      \/ (exists fs1, snd (writeFileSync_ro fs1 tf LazyLoader.minimalPDF) = Throw EROFS)
      \/ (exists fs1, require fs1 "pdf-parse" = Throw EROFS)).
Proof.
  exact (LazyLoaderProps.getPdfParse_failure_not_cached FS accessSync mkdirSync
           writeFileSync_ro require dirname cold _ EROFS cold
           cold_start_read_only).
Defined.

Lemma getPdfParse_keeps_existing_file_run :
  let present_cold : LazyLoader.state FS :=
    {| LazyLoader.fs := [(tf, pdf_bytes)]; LazyLoader.pdfParse := None |} in
  LazyLoader.fs FS (snd (load present_cold)) = [(tf, pdf_bytes)]
  /\ Forall (fun i =>
               match i with
               | LazyLoader.IoMkdir _ | LazyLoader.IoWriteFile _ _ => False
               | _ => True
               end)
            (fst (fst (load present_cold))).
Proof.
  intros present_cold.
  apply (LazyLoaderProps.getPdfParse_keeps_existing_file FS accessSync mkdirSync
           writeFileSync require dirname present_cold).
  right. exists tt. reflexivity.
Defined.

Lemma lazy_answers_as_eager_run :
  let req := ocr_request [] (Some pdf_upload) in
  let eager := app fetch pdfParse recognize TypeError open_env req in
  snd (fst (lazy open_env req cold)) = snd eager
  /\ LazyLoader.events (fst (fst (lazy open_env req cold))) = fst eager
  /\ (snd (lazy open_env req cold) = cold \/ snd (lazy open_env req cold) = warm).
Proof.
  exact (LazyLoaderProps.lazy_answers_as_eager FS accessSync mkdirSync
           writeFileSync require dirname fetch recognize TypeError
           open_env (ocr_request [] (Some pdf_upload)) cold _ pdfParse warm
           cold_start).
Defined.

Lemma lazy_loader_failure_run :
  let url : jstring := "https://files.example/report.pdf" in
  let tl :=
    [LazyLoader.IoAccess tf; LazyLoader.IoMkdir td;
     LazyLoader.IoWriteFile tf LazyLoader.minimalPDF;
     LazyLoader.Ev (EvConsoleError "Failed to init pdf-parse:" EROFS)] in
  LazyLoader.parse_handler FS accessSync mkdirSync writeFileSync_ro require
    dirname fetch TypeError (parse_request [] (url_body url)) cold =
    (LazyLoader.Ev (EvFetch (VStr url)) :: tl
       ++ [LazyLoader.Ev (EvConsoleError "parse-url error:" EROFS)],
     Normal {| res_status := 500;
               res_body := VObj ["error" :- VStr "Failed to parse document"] |},
     cold)
  /\ LazyLoader.ocr_handler FS accessSync mkdirSync writeFileSync_ro require
       dirname recognize TypeError (Some pdf_upload) cold =
       (tl ++ [LazyLoader.Ev (EvConsoleError "OCR upload error:" EROFS)],
        Normal {| res_status := 500;
                  res_body := VObj ["error" :- VStr "Failed to process file";
                                    "message" :-
                                      VStr "EROFS: read-only file system"] |},
        cold).
Proof.
  intros url tl.
  pose (thm := LazyLoaderProps.lazy_loader_failure FS accessSync mkdirSync
                 writeFileSync_ro require dirname fetch recognize TypeError
                 cold tl EROFS cold cold_start_read_only).
  split.
  - refine (proj1 thm (parse_request [] (url_body url))
              ["file_url" :- VStr url] url
              {| ok := true; status := 200; arrayBuffer := Normal pdf_bytes |}
              pdf_bytes eq_refl eq_refl _ eq_refl eq_refl eq_refl).
    discriminate.
  - exact (proj2 thm pdf_upload eq_refl eq_refl).
Defined.

Lemma lazy_untouched_run :
  let req := ocr_request [] (Some png_upload) in
  let eager := app fetch SampleFs.reject_undefined recognize TypeError open_env req in
  lazy open_env req cold = (map LazyLoader.Ev (fst eager), snd eager, cold)
  /\ LazyLoader.touches (fst (fst (lazy open_env req cold))) = [].
Proof.
  apply (LazyLoaderProps.lazy_untouched FS accessSync mkdirSync writeFileSync
           require dirname fetch recognize TypeError open_env
           (ocr_request [] (Some png_upload)) cold SampleFs.reject_undefined).
  right; right; right. split; [reflexivity|].
  intros f [= <-]. discriminate.
Defined.

Lemma lazy_warm_run :
  let req := parse_request [] (url_body "https://files.example/report.pdf") in
  let eager := app fetch pdfParse recognize TypeError open_env req in
  lazy open_env req warm = (map LazyLoader.Ev (fst eager), snd eager, warm)
  /\ LazyLoader.touches (fst (fst (lazy open_env req warm))) = [].
Proof.
  exact (LazyLoaderProps.lazy_warm FS accessSync mkdirSync writeFileSync
           require dirname fetch recognize TypeError open_env
           (parse_request [] (url_body "https://files.example/report.pdf"))
           warm pdfParse eq_refl).
Defined.

End LoaderRuns.

(* ================================================================== *)
(** ** The whole server: body parser, guard, health routes, failures *)

Section WholeServer.

Variable fetch : value -> completion fetch_response.
Variable pdfParse : list byte -> completion value.
Variable recognize : list byte -> jstring -> completion value.
Variable TypeError : type_error_site -> value.

Local Abbreviation Server := (server fetch pdfParse recognize TypeError).
Local Abbreviation App := (app fetch pdfParse recognize TypeError).
Local Abbreviation Parse := (parse_handler fetch pdfParse TypeError).
Local Abbreviation Ocr := (ocr_handler pdfParse recognize TypeError).

Lemma server_parsed env i b :
  in_json i = Normal b -> Server env i = App env (parsed i b).
Proof. unfold server. now intros ->. Qed.

Lemma server_parser_error env i e :
  in_json i = Throw e ->
  Server env i =
    ([], Normal {| res_status := 500;
                   res_body := VObj ["error" :- VStr "Unexpected error"] |}).
Proof. unfold server. now intros ->. Qed.

Lemma key_refused_set env req k :
  OCR_API_KEY env = Some k -> k <> [] ->
  assoc "x-api-key" (headers req) <> Some k ->
  key_accepted env req = false.
Proof.
  intros Hset Hne Hh. destruct (key_accepted env req) eqn:E; [|reflexivity].
  apply (key_accepted_set env req k Hset Hne) in E. contradiction.
Qed.

(** C6, amended. A throwing extractor or OCR engine is caught and
    answered 500.  [/parse] answers exactly
    [{error: "Failed to parse document"}], whatever was thrown.
    [/api/ocr], for a thrown value that is not [null] or [undefined],
    answers [{error: "Failed to process file", message}] with the
    [message] property of what was thrown: the message itself when there
    is one, and no [message] key at all when there is none (a thrown
    string, for instance).  The failure itself goes to the log only. *)
Theorem extraction_failure_answered env req e :
  key_accepted env req = true ->
  let failed := VObj ["error" :- VStr "Failed to process file";
                      "message" :- opt_get e message] in
  (forall props u r buf,
     route req = POST_parse ->
     body req = VObj props ->
     assoc "file_url" props = Some (VStr u) ->
     u <> [] ->
     fetch (VStr u) = Normal r ->
     ok r = true ->
     arrayBuffer r = Normal buf ->
     pdfParse buf = Throw e ->
     App env req =
       ([EvFetch (VStr u); EvPdfParse buf;
         EvConsoleError "parse-url error:" e],
        Normal {| res_status := 500;
                  res_body := VObj ["error" :- VStr "Failed to parse document"] |}))
  /\ (nullish e = false ->
      forall f,
        route req = POST_api_ocr ->
        upload req = Some f ->
        size f <= MAX_FILE_SIZE ->
        let answer :=
          Normal {| res_status := 500; res_body := to_json failed |} in
        (mimetype f = "application/pdf" ->
         pdfParse (buffer f) = Throw e ->
         App env req =
           ([EvPdfParse (buffer f); EvConsoleError "OCR upload error:" e],
            answer))
        /\ (startsWith (mimetype f) "image/" = true ->
            recognize (buffer f) "eng" = Throw e ->
            App env req =
              ([EvRecognize (buffer f) "eng";
                EvConsoleError "OCR upload error:" e],
               answer)))
  /\ (forall m, opt_get e message = VStr m ->
        to_json failed = VObj ["error" :- VStr "Failed to process file";
                               "message" :- VStr m])
  /\ (opt_get e message = VUndef ->
      to_json failed = VObj ["error" :- VStr "Failed to process file"]).
Proof.
  intros Hk failed. split; [|split; [|split]].
  - intros props u r buf Hr Hb Hu Hne Hf Hok Hab Hp.
    rewrite (app_parse fetch pdfParse recognize TypeError env req Hr Hk).
    now rewrite (parse_fetched fetch pdfParse TypeError req props u r buf), Hp.
  - intros He f Hr Hu Hs answer.
    rewrite (app_ocr_file fetch pdfParse recognize TypeError env req f)
      by assumption.
    assert (Hfail : forall t, ocr_failed TypeError t e =
              (t ++ [EvConsoleError "OCR upload error:" e], answer)).
    { intros t. unfold ocr_failed.
      now rewrite (get_prop_opt_get TypeError e message He). }
    split.
    + intros Hm Hp. now rewrite ocr_pdf, Hp, Hfail.
    + intros Hi Hp.
      rewrite ocr_image by (trivial; now apply image_is_not_pdf).
      now rewrite Hp, Hfail.
  - intros m Hm. subst failed. now rewrite Hm.
  - intros Hm. subst failed. now rewrite Hm.
Qed.

(** C8, amended. The guard stands before the handlers of [POST /parse]
    and [POST /api/ocr] and not before the health handler.  For a request
    whose body the JSON parser accepted: while [OCR_API_KEY] is unset or
    empty the guard calls [next] and the request reaches the rest of its
    route; with a non-empty key, a request without the [x-api-key] header
    or with another value there is answered 401 [{error: "Unauthorized"}]
    and nothing else runs, and a request carrying the key is passed on by
    [next] to the handler: the [/parse] handler itself, and on [/api/ocr]
    the handler behind [upload.single], which runs on the file handed over
    whenever there is none or it is within the size limit. *)
Theorem guard_on_server env i b :
  in_json i = Normal b ->
  let req := parsed i b in
  let chain :=
    match in_route i with
    | POST_api_ocr => ocr_chain pdfParse recognize TypeError req
    | _ => Parse req
    end in
  let unauthorized : M response :=
    ([], Normal {| res_status := 401;
                   res_body := VObj ["error" :- VStr "Unauthorized"] |}) in
  (in_route i = POST_parse \/ in_route i = POST_api_ocr ->
     (OCR_API_KEY env = None \/ OCR_API_KEY env = Some [] ->
        (forall next, verifyKey env req next = next)
        /\ Server env i = chain)
     /\ (forall k, OCR_API_KEY env = Some k -> k <> [] ->
          (assoc "x-api-key" (in_headers i) <> Some k ->
             (forall next, verifyKey env req next = unauthorized)
             /\ Server env i = unauthorized)
          /\ (assoc "x-api-key" (in_headers i) = Some k ->
              (forall next, verifyKey env req next = next)
              /\ Server env i = chain)))
  /\ (in_route i = POST_api_ocr ->
      in_upload i = None
      \/ (exists f, in_upload i = Some f /\ size f <= MAX_FILE_SIZE) ->
      chain = Ocr (in_upload i))
  /\ (in_route i = GET_root \/ in_route i = GET_healthz ->
      Server env i = health).
Proof.
  intros Hb req chain unauthorized.
  rewrite (server_parsed env i b Hb). fold req.
  assert (Hpass : in_route i = POST_parse \/ in_route i = POST_api_ocr ->
                  key_accepted env req = true ->
                  (forall next, verifyKey env req next = next)
                  /\ App env req = chain).
  { intros Hr Hk. split; [intros next; now apply verifyKey_accepted|].
    subst chain. unfold app. change (route req) with (in_route i).
    destruct Hr as [-> | ->]; now apply verifyKey_accepted. }
  split; [|split].
  - intros Hr. split.
    + intros Hunset. apply (Hpass Hr). now apply key_accepted_unset.
    + intros k Hset Hne. split.
      * intros Hh.
        assert (Hk : key_accepted env req = false)
          by now apply (key_refused_set env req k).
        split; [intros next; now apply verifyKey_refused|].
        unfold app. change (route req) with (in_route i).
        destruct Hr as [-> | ->]; now apply verifyKey_refused.
      * intros Hh. apply (Hpass Hr).
        now apply (key_accepted_set env req k Hset Hne).
  - intros Hr Hu. subst chain. rewrite Hr. unfold ocr_chain.
    change (upload req) with (in_upload i).
    destruct Hu as [-> | (f & -> & Hs)]; [reflexivity|].
    now rewrite upload_single_within.
  - unfold app. change (route req) with (in_route i). now intros [-> | ->].
Qed.

(** C9, amended. For a request whose body the JSON parser accepted,
    [GET /] and [GET /healthz] of the full server answer 200 with the
    fixed descriptor (service name and endpoints, [ok: true]), whatever
    the configured key, the headers, the body and the collaborators;
    nothing is called or logged.  The minimal [server.js] has the one
    route [GET /healthz], answered 200 with exactly [{ok: true}] in the
    same way, and no route for [GET /]. *)
Theorem health_ok_when_parsed env i b :
  in_json i = Normal b ->
  let descriptor :=
    ["ok" :- VBool true;
     "service" :- VStr "GovProp OCR";
     "endpoints" :- VObj ["parseUrl" :- VStr "POST /parse";
                          "ocrUpload" :- VStr "POST /api/ocr";
                          "health" :- VStr "GET /healthz"]] in
  (in_route i = GET_root \/ in_route i = GET_healthz ->
     Server env i =
       ([], Normal {| res_status := 200; res_body := VObj descriptor |}))
  /\ assoc "ok" descriptor = Some (VBool true)
  /\ (in_route i = GET_healthz ->
      minimal_server fetch pdfParse TypeError env i =
        Some ([], Normal {| res_status := 200;
                            res_body := VObj ["ok" :- VBool true] |}))
  /\ (in_route i = GET_root ->
      minimal_server fetch pdfParse TypeError env i = None).
Proof.
  intros Hb descriptor. split; [|split; [|split]].
  - rewrite (server_parsed env i b Hb). unfold app.
    change (route (parsed i b)) with (in_route i). now intros [-> | ->].
  - reflexivity.
  - unfold minimal_server, ServerJs.app. rewrite Hb.
    change (route (parsed i b)) with (in_route i). now intros ->.
  - unfold minimal_server, ServerJs.app. rewrite Hb.
    change (route (parsed i b)) with (in_route i). now intros ->.
Qed.

(** X9. Every answer of the full server, body parser and final error
    handler included, has a status its route allows: 200 on the health
    routes, or 500 when the body parser failed, and only then; 200, 400,
    401, 500 or 502 on [/parse]; 200, 400, 401 or 500 on [/api/ocr].  Its
    body has a string [error] property exactly when the status is not
    200. *)
Theorem server_answer_shape env i t r :
  Server env i = (t, Normal r) ->
  In (res_status r)
     match in_route i with
     | GET_root | GET_healthz => [200; 500]
     | POST_parse => [200; 400; 401; 500; 502]
     | POST_api_ocr => [200; 400; 401; 500]
     end
  /\ (in_route i = GET_root \/ in_route i = GET_healthz ->
      (res_status r = 500 <-> exists e, in_json i = Throw e))
  /\ (res_status r = 200 -> error_text (res_body r) = None)
  /\ (res_status r <> 200 -> exists s, error_text (res_body r) = Some s).
Proof.
  destruct (in_json i) as [b|e] eqn:Hj.
  - rewrite (server_parsed env i b Hj). intros H.
    destruct (routes_answer_shape fetch pdfParse recognize TypeError
                env (parsed i b) t r H) as (Hin & H200 & Herr).
    change (route (parsed i b)) with (in_route i) in Hin.
    split; [|split; [|split]]; trivial.
    + destruct (in_route i); simpl in Hin |- *; intuition.
    + intros Hr. split.
      * intros H500. exfalso.
        destruct Hr as [Hr | Hr]; rewrite Hr in Hin; simpl in Hin;
          destruct Hin as [Hin | []]; congruence.
      * intros [e He]. discriminate He.
  - rewrite (server_parser_error env i e Hj). intros [= <- <-].
    split; [|split; [|split]].
    + destruct (in_route i); simpl; auto.
    + intros _. split; [now exists e | reflexivity].
    + discriminate.
    + intros _. now eexists.
Qed.

End WholeServer.

(* ================================================================== *)
(** ** Concrete runs of the whole server *)

Module ServerRuns.
Import Sample SampleFs SampleWire.

Abbreviation run := (app fetch pdfParse recognize TypeError).
Abbreviation serve := (server fetch pdfParse recognize TypeError).
Abbreviation serve_minimal := (minimal_server fetch pdfParse TypeError).

Lemma extraction_failure_answered_run :
  run open_env junk_request =
    ([EvFetch (VStr "https://files.example/junk.pdf"); EvPdfParse junk_bytes;
      EvConsoleError "parse-url error:" (Error "Invalid PDF structure")],
     Normal {| res_status := 500;
               res_body := VObj ["error" :- VStr "Failed to parse document"] |})
  /\ run open_env (ocr_request [] (Some bad_pdf_upload)) =
       ([EvPdfParse junk_bytes;
         EvConsoleError "OCR upload error:" (Error "Invalid PDF structure")],
        Normal {| res_status := 500;
                  res_body := VObj ["error" :- VStr "Failed to process file";
                                    "message" :- VStr "Invalid PDF structure"] |})
  /\ app fetch pdfParse reject_string TypeError open_env
       (ocr_request [] (Some png_upload)) =
       ([EvRecognize png_bytes "eng";
         EvConsoleError "OCR upload error:" (VStr "boom")],
        Normal {| res_status := 500;
                  res_body := VObj ["error" :- VStr "Failed to process file"] |}).
Proof.
  split; [|split].
  - refine (proj1 (extraction_failure_answered fetch pdfParse recognize TypeError
                     open_env junk_request (Error "Invalid PDF structure")
                     eq_refl)
              _ "https://files.example/junk.pdf"
              {| ok := true; status := 200; arrayBuffer := Normal junk_bytes |}
              junk_bytes eq_refl eq_refl eq_refl _ eq_refl eq_refl eq_refl
              eq_refl).
    discriminate.
  - refine (proj1 (proj1 (proj2 (extraction_failure_answered fetch pdfParse
                     recognize TypeError
                     open_env (ocr_request [] (Some bad_pdf_upload))
                     (Error "Invalid PDF structure") eq_refl))
              eq_refl bad_pdf_upload eq_refl eq_refl _) eq_refl eq_refl).
    vm_compute; discriminate.
  - refine (proj2 (proj1 (proj2 (extraction_failure_answered fetch pdfParse
                     reject_string TypeError
                     open_env (ocr_request [] (Some png_upload))
                     (VStr "boom") eq_refl))
              eq_refl png_upload eq_refl eq_refl _) eq_refl eq_refl).
    vm_compute; discriminate.
Defined.

(** C6 as stated fails on [/api/ocr] in two ways.  An OCR engine that
    rejects with a string is answered 500 without any [message]; an
    extractor that rejects with [undefined] is not answered by the handler
    at all: its [catch] block throws on [error.message]. *)
Lemma ocr_failure_without_message :
  (exists t b,
     app fetch pdfParse reject_string TypeError open_env
       (ocr_request [] (Some png_upload)) =
       (t, Normal {| res_status := 500; res_body := b |})
     /\ field b "message" = None)
  /\ (exists t,
        app fetch reject_undefined recognize TypeError open_env
          (ocr_request [] (Some pdf_upload)) =
          (t, Throw (TypeError ReadOfNullish))).
Proof.
  split.
  - eexists _, _. split; reflexivity.
  - eexists. reflexivity.
Qed.

Lemma guard_on_server_run :
  let unauthorized : M response :=
    ([], Normal {| res_status := 401;
                   res_body := VObj ["error" :- VStr "Unauthorized"] |}) in
  let no_key := parse_request [] (VObj []) in
  let wrong_key := ocr_request [(lit "x-api-key", lit "guess")] (Some pdf_upload) in
  let right_key := ocr_request with_key (Some pdf_upload) in
  ((forall next, verifyKey open_env no_key next = next)
   /\ serve open_env (arrive no_key) =
        parse_handler fetch pdfParse TypeError no_key)
  /\ ((forall next, verifyKey keyed_env report_request next = unauthorized)
      /\ serve keyed_env (arrive report_request) = unauthorized)
  /\ ((forall next, verifyKey keyed_env wrong_key next = unauthorized)
      /\ serve keyed_env (arrive wrong_key) = unauthorized)
  /\ ((forall next, verifyKey keyed_env right_key next = next)
      /\ serve keyed_env (arrive right_key) =
           ocr_chain pdfParse recognize TypeError right_key)
  /\ ocr_chain pdfParse recognize TypeError right_key =
       ocr_handler pdfParse recognize TypeError (Some pdf_upload)
  /\ serve keyed_env (arrive (get_request GET_healthz)) = health.
Proof.
  intros unauthorized no_key wrong_key right_key.
  pose (thm := fun env req =>
          guard_on_server fetch pdfParse recognize TypeError env
            (arrive req) (body req) eq_refl).
  assert (Hk : lit "s3cret" <> []) by discriminate.
  split; [|split; [|split; [|split; [|split]]]].
  - exact (proj1 (proj1 (thm open_env no_key) (or_introl eq_refl))
             (or_introl eq_refl)).
  - refine (proj1 (proj2 (proj1 (thm keyed_env report_request)
                            (or_introl eq_refl)) _ eq_refl Hk) _).
    discriminate.
  - refine (proj1 (proj2 (proj1 (thm keyed_env wrong_key)
                            (or_intror eq_refl)) _ eq_refl Hk) _).
    discriminate.
  - exact (proj2 (proj2 (proj1 (thm keyed_env right_key)
                            (or_intror eq_refl)) _ eq_refl Hk) eq_refl).
  - refine (proj1 (proj2 (thm keyed_env right_key)) eq_refl _).
    right. exists pdf_upload. split; [reflexivity | vm_compute; discriminate].
  - exact (proj2 (proj2 (thm keyed_env (get_request GET_healthz)))
             (or_intror eq_refl)).
Defined.

(** C8 as stated fails in two ways.  A key that is set but empty is read
    as no key: a request without the header reaches the handler (here
    answered 400 for its missing [file_url]).  And with a real key
    configured, a request without the header whose body is not JSON never
    reaches the guard: the body parser's error is answered 500. *)
Lemma guard_not_reached_or_disabled :
  (OCR_API_KEY blank_env = Some []
   /\ assoc "x-api-key" (in_headers (arrive (parse_request [] (VObj [])))) = None
   /\ serve blank_env (arrive (parse_request [] (VObj []))) =
        ([], Normal {| res_status := 400;
                       res_body := VObj ["error" :- VStr "Missing file_url"] |}))
  /\ (OCR_API_KEY keyed_env = Some (lit "s3cret")
      /\ assoc "x-api-key" (in_headers (garbled POST_parse [])) = None
      /\ serve keyed_env (garbled POST_parse []) =
           ([], Normal {| res_status := 500;
                          res_body := VObj ["error" :- VStr "Unexpected error"] |})).
Proof. repeat split. Qed.

Lemma health_ok_when_parsed_run :
  let descriptor :=
    ["ok" :- VBool true;
     "service" :- VStr "GovProp OCR";
     "endpoints" :- VObj ["parseUrl" :- VStr "POST /parse";
                          "ocrUpload" :- VStr "POST /api/ocr";
                          "health" :- VStr "GET /healthz"]] in
  serve keyed_env (arrive (get_request GET_root)) =
    ([], Normal {| res_status := 200; res_body := VObj descriptor |})
  /\ serve keyed_env (arrive (get_request GET_healthz)) =
       ([], Normal {| res_status := 200; res_body := VObj descriptor |})
  /\ serve_minimal keyed_env (arrive (get_request GET_healthz)) =
       Some ([], Normal {| res_status := 200;
                           res_body := VObj ["ok" :- VBool true] |})
  /\ serve_minimal keyed_env (arrive (get_request GET_root)) = None.
Proof.
  intros descriptor.
  pose (thm := fun r =>
          health_ok_when_parsed fetch pdfParse recognize TypeError keyed_env
            (arrive (get_request r)) (VObj []) eq_refl).
  split; [|split; [|split]].
  - exact (proj1 (thm GET_root) (or_introl eq_refl)).
  - exact (proj1 (thm GET_healthz) (or_intror eq_refl)).
  - exact (proj1 (proj2 (proj2 (thm GET_healthz))) eq_refl).
  - exact (proj2 (proj2 (proj2 (thm GET_root))) eq_refl).
Defined.

(** C9 as stated fails in two ways.  A health request whose body is not
    JSON is stopped by the body parser and answered 500 by the final
    error handler; and the minimal [server.js] has no route for [GET /],
    and answers [/healthz] with [{ok: true}] alone, without the service
    name and the endpoints. *)
Lemma health_not_always_200 :
  serve open_env (garbled GET_healthz []) =
    ([], Normal {| res_status := 500;
                   res_body := VObj ["error" :- VStr "Unexpected error"] |})
  /\ serve open_env (garbled GET_root []) =
       ([], Normal {| res_status := 500;
                      res_body := VObj ["error" :- VStr "Unexpected error"] |})
  /\ serve_minimal open_env (arrive (get_request GET_root)) = None
  /\ (exists b,
        serve_minimal open_env (arrive (get_request GET_healthz)) =
          Some ([], Normal {| res_status := 200; res_body := b |})
        /\ field b "service" = None /\ field b "endpoints" = None).
Proof.
  repeat split. eexists. repeat split.
Qed.

Lemma server_answer_shape_run :
  exists t r,
    serve keyed_env (garbled GET_healthz []) = (t, Normal r)
    /\ In (res_status r) [200; 500]
    /\ (GET_healthz = GET_root \/ GET_healthz = GET_healthz ->
        (res_status r = 500 <->
         exists e, in_json (garbled GET_healthz []) = Throw e))
    /\ (res_status r = 200 -> error_text (res_body r) = None)
    /\ (res_status r <> 200 -> exists s, error_text (res_body r) = Some s).
Proof.
  eexists _, _. split; [reflexivity|].
  eapply (server_answer_shape fetch pdfParse recognize TypeError keyed_env
            (garbled GET_healthz [])).
  reflexivity.
Defined.

End ServerRuns.
